(** * EllaBella: the turn dispatch of a rule-based chatbot

    A shallow embedding of [ellabella.py]: the static knowledge table and its
    fuzzy lookup, the keyword intent classifier, the response formatter, the
    remote completion call, the per-turn orchestration and the conversation
    log, followed by the properties proved about them.

    Conventions of the embedding.
    - A Python [str] is a Rocq [string]; a character is a code point below
      256, so the embedding covers Latin-1 text.  On that range
      [str.lower] and [str.isspace] are the per-character tables written
      out in [Py.lower_char] and [Py.isspace].
    - A Python object that may be a string, a list, a dict, a number or
      [None] is a [value].
    - A Python exception is an [exn]; code that may raise, log or append to
      the conversation history runs in the monad [M], whose state survives
      a raise (what was logged before the exception stays logged).
    - The clock and the network are inputs: a [World] gives the two clock
      readings of a turn and the outcome of [requests.post]. *)

From Stdlib Require Import String Ascii List ZArith QArith Lia Bool Arith.
Import ListNotations.

Local Close Scope Q_scope.
Local Open Scope nat_scope.
Local Open Scope list_scope.
Local Open Scope string_scope.

(** ** Python values and exceptions *)

#[local] Set Warnings "-register-all".

Inductive value : Type :=
| VNone
| VBool (b : bool)
| VInt (z : Z)
| VFloat (q : Q)
| VStr (s : string)
| VList (l : list value)
| VDict (d : list (string * value)).

(** An instance of [Exception], which is what [except Exception] catches:
    [class_name] is its class, [str_exn] what [str(e)] prints. *)
Record exn : Type := Exn { class_name : string; str_exn : string }.

Inductive result (A : Type) : Type :=
| Ok (a : A)
| Raise (e : exn).
Arguments Ok {A} a.
Arguments Raise {A} e.

(** ** The Python built-ins the program uses *)

Module Py.

(** [bool(v)]: the truth value tested by [if v] and [not v]. *)
Definition truthy (v : value) : bool :=
  match v with
  | VNone => false
  | VBool b => b
  | VInt z => negb (Z.eqb z 0)
  | VFloat q => negb (Qeq_bool q 0)
  | VStr s => negb (String.eqb s "")
  | VList l => match l with [] => false | _ :: _ => true end
  | VDict d => match d with [] => false | _ :: _ => true end
  end.

Definition type_name (v : value) : string :=
  match v with
  | VNone => "NoneType"
  | VBool _ => "bool"
  | VInt _ => "int"
  | VFloat _ => "float"
  | VStr _ => "str"
  | VList _ => "list"
  | VDict _ => "dict"
  end.

Definition AttributeError (v : value) (attr : string) : exn :=
  Exn "AttributeError"
      ("'" ++ type_name v ++ "' object has no attribute '" ++ attr ++ "'").

(** Looking up a [str] method on an object: only a string has one. *)
Definition str_method (attr : string) (v : value) : result string :=
  match v with
  | VStr s => Ok s
  | _ => Raise (AttributeError v attr)
  end.

(** Looking up [dict.get] on an object: only a dict has it. *)
Definition dict_method (attr : string) (v : value)
  : result (list (string * value)) :=
  match v with
  | VDict d => Ok d
  | _ => Raise (AttributeError v attr)
  end.

(** [d[key]] when present, for a dict kept in insertion order. *)
Fixpoint lookup {A : Type} (key : string) (d : list (string * A)) : option A :=
  match d with
  | [] => None
  | (k, v) :: rest => if String.eqb key k then Some v else lookup key rest
  end.

(** [d.get(key, default)] *)
Definition get {A : Type} (d : list (string * A)) (key : string) (default : A) : A :=
  match lookup key d with
  | Some v => v
  | None => default
  end.

(** [str.lower] on one code point below 256: A-Z and the Latin-1 capitals
    (0xC0-0xDE but the multiplication sign 0xD7) move up by 32. *)
Definition lower_char (c : ascii) : ascii :=
  let n := nat_of_ascii c in
  if (((65 <=? n) && (n <=? 90))
      || ((192 <=? n) && (n <=? 222) && negb (n =? 215)))%nat
  then ascii_of_nat (n + 32)
  else c.

Fixpoint lower (s : string) : string :=
  match s with
  | EmptyString => EmptyString
  | String c rest => String (lower_char c) (lower rest)
  end.

(** [str.isspace] on one code point below 256. *)
Definition isspace (c : ascii) : bool :=
  let n := nat_of_ascii c in
  (((9 <=? n) && (n <=? 13)) || ((28 <=? n) && (n <=? 32))
   || (n =? 133) || (n =? 160))%nat.

Fixpoint lstrip (s : string) : string :=
  match s with
  | EmptyString => EmptyString
  | String c rest => if isspace c then lstrip rest else s
  end.

Fixpoint rstrip (s : string) : string :=
  match s with
  | EmptyString => EmptyString
  | String c rest =>
      match rstrip rest with
      | EmptyString => if isspace c then EmptyString else String c EmptyString
      | kept => String c kept
      end
  end.

Definition strip (s : string) : string := rstrip (lstrip s).

Fixpoint startswith (p s : string) : bool :=
  match p, s with
  | EmptyString, _ => true
  | String _ _, EmptyString => false
  | String a p', String b s' => Ascii.eqb a b && startswith p' s'
  end.

(** [sub in s] *)
Fixpoint contains (sub s : string) : bool :=
  startswith sub s
  || match s with
     | EmptyString => false
     | String _ rest => contains sub rest
     end.

(** [s[:n]] and [s[n:]] for [n >= 0] *)
Fixpoint take (n : nat) (s : string) : string :=
  match n, s with
  | O, _ => EmptyString
  | S _, EmptyString => EmptyString
  | S k, String c rest => String c (take k rest)
  end.

Fixpoint drop (n : nat) (s : string) : string :=
  match n, s with
  | O, _ => s
  | S _, EmptyString => EmptyString
  | S k, String _ rest => drop k rest
  end.

(** [s.replace(old, new)] for a non-empty [old]: occurrences are found
    left to right and do not overlap; [skip] counts the characters of the
    occurrence just replaced that are still to be passed over. *)
Fixpoint replace_from (old new : string) (skip : nat) (s : string) : string :=
  match s with
  | EmptyString => EmptyString
  | String c rest =>
      match skip with
      | S k => replace_from old new k rest
      | O =>
          if startswith old s
          then new ++ replace_from old new (String.length old - 1) rest
          else String c (replace_from old new 0 rest)
      end
  end.

(** With an empty [old], Python puts [new] around every character. *)
Fixpoint interleave (new s : string) : string :=
  match s with
  | EmptyString => new
  | String c rest => new ++ String c (interleave new rest)
  end.

Definition replace (old new s : string) : string :=
  match old with
  | EmptyString => interleave new s
  | String _ _ => replace_from old new 0 s
  end.

Definition cons_head (c : ascii) (pieces : list string) : list string :=
  match pieces with
  | [] => [String c EmptyString]
  | p :: ps => String c p :: ps
  end.

(** [s.split(sep)] for a non-empty [sep]: the same left-to-right scan. *)
Fixpoint split_from (sep : string) (skip : nat) (s : string) : list string :=
  match s with
  | EmptyString => [EmptyString]
  | String c rest =>
      match skip with
      | S k => split_from sep k rest
      | O =>
          if startswith sep s
          then EmptyString :: split_from sep (String.length sep - 1) rest
          else cons_head c (split_from sep 0 rest)
      end
  end.

Definition split (sep s : string) : result (list string) :=
  match sep with
  | EmptyString => Raise (Exn "ValueError" "empty separator")
  | String _ _ => Ok (split_from sep 0 s)
  end.

(** [sep.join(pieces)] *)
Fixpoint join (sep : string) (pieces : list string) : string :=
  match pieces with
  | [] => EmptyString
  | p :: ps =>
      match ps with
      | [] => p
      | _ :: _ => p ++ sep ++ join sep ps
      end
  end.

(** [l[-1]] of a non-empty list; [IndexError] on an empty one. *)
Fixpoint last_item (l : list string) : result string :=
  match l with
  | [] => Raise (Exn "IndexError" "list index out of range")
  | x :: rest =>
      match rest with
      | [] => Ok x
      | _ :: _ => last_item rest
      end
  end.

(** [l[-n:]] for [n > 0]: the last [n] items, all of them when there are
    fewer. *)
Definition last_n {A : Type} (n : nat) (l : list A) : list A :=
  skipn (List.length l - n) l.

Definition nl : string := String (ascii_of_nat 10) EmptyString.

End Py.

(** ** State and effects *)

(** An instant read from the wall clock. *)
Definition datetime : Type := Z.

Record Message : Type := {
  content : string;
  timestamp : datetime;
  sender : string
}.

Inductive level : Type := INFO | ERROR.

(** One line of [ellabella.log]. *)
Record LogRecord : Type := { levelname : level; message : string }.

(** The chatbot object, with the log file the logging module writes. *)
Record EllaBella : Type := {
  api_token : string;
  headers : list (string * string);
  conversation_history : list Message;
  logfile : list LogRecord
}.

Definition M (A : Type) : Type := EllaBella -> result A * EllaBella.

Definition ret {A : Type} (a : A) : M A := fun self => (Ok a, self).

Definition raise {A : Type} (e : exn) : M A := fun self => (Raise e, self).

Definition lift {A : Type} (r : result A) : M A := fun self => (r, self).

Definition bind {A B : Type} (m : M A) (k : A -> M B) : M B :=
  fun self =>
    match m self with
    | (Ok a, self') => k a self'
    | (Raise e, self') => (Raise e, self')
    end.

(** [try: body  except Exception as e: handler e] *)
Definition try_except {A : Type} (body : M A) (handler : exn -> M A) : M A :=
  fun self =>
    match body self with
    | (Ok a, self') => (Ok a, self')
    | (Raise e, self') => handler e self'
    end.

Definition this : M EllaBella := fun self => (Ok self, self).

Declare Scope py_scope.
Delimit Scope py_scope with py.
Notation "x <- m ;; k" := (bind m (fun x => k))
  (at level 61, m at next level, right associativity) : py_scope.
Notation "m ;; k" := (bind m (fun _ => k))
  (at level 61, right associativity) : py_scope.
Local Open Scope py_scope.

(** [logging.info] and [logging.error] *)
Definition logging (lv : level) (msg : string) : M unit :=
  fun self =>
    (Ok tt,
     {| api_token := api_token self;
        headers := headers self;
        conversation_history := conversation_history self;
        logfile := (logfile self ++ [{| levelname := lv; message := msg |}])%list |}).

(** ** KnowledgeBase *)

Module KnowledgeBase.

Definition usa : string :=
  Py.nl
  ++ "                The United States of America (USA) is a federal republic consisting of 50 states, " ++ Py.nl
  ++ "                a federal district, and various territories. It is the world's third-largest country " ++ Py.nl
  ++ "                by total area and population. The capital is Washington, D.C., and the largest city " ++ Py.nl
  ++ "                is New York City. The USA is known for its diverse geography, multicultural population, " ++ Py.nl
  ++ "                strong economy, and significant global influence in politics, culture, and technology." ++ Py.nl
  ++ "                ".

Definition about_me : string :=
  Py.nl
  ++ "                I'm EllaBella, an AI assistant designed to help answer questions and provide information " ++ Py.nl
  ++ "                on various topics. I aim to be helpful while being clear about my capabilities and limitations." ++ Py.nl
  ++ "                ".

Definition greeting : list value :=
  [ VStr "Hello! How can I help you today?";
    VStr "Hi there! What would you like to know about?";
    VStr "Greetings! I'm here to assist you." ].

(** [self.knowledge], in definition order. *)
Definition knowledge : list (string * value) :=
  [ ("usa", VStr usa);
    ("greeting", VList greeting);
    ("about_me", VStr about_me) ].

(** The partial-match loop over the keys, in the dict's order. *)
Fixpoint partial_match (topic_key : string) (table : list (string * value))
  : value :=
  match table with
  | [] => VNone
  | (key, v) :: rest =>
      if Py.contains key topic_key || Py.contains topic_key key
      then v
      else partial_match topic_key rest
  end.

Definition get_knowledge (topic : string) : value :=
  let topic_key := Py.strip (Py.lower topic) in
  match Py.lookup topic_key knowledge with
  | Some v => v
  | None => partial_match topic_key knowledge
  end.

End KnowledgeBase.

(** ** EllaBella *)

(** [EllaBella.__init__], as far as the turn logic reads it. *)
Definition init (token : string) : EllaBella :=
  {| api_token := token;
     headers := [("Authorization", "Bearer " ++ token)];
     conversation_history := [];
     logfile := [] |}.

(** The intent patterns of [_identify_intent], in definition order. *)
Definition intents : list (string * list string) :=
  [ ("greeting", ["hello"; "hi"; "hey"; "greetings"; "good morning"; "good afternoon"]);
    ("about_bot", ["who are you"; "what are you"; "tell me about yourself"]);
    ("farewell", ["goodbye"; "bye"; "see you"; "quit"; "exit"]);
    ("about_topic", ["tell me about"; "what is"; "who is"; "explain"]);
    ("personal_info", ["i am"; "i'm"; "my name"; "about me"]);
    ("affirmation", ["yes"; "yeah"; "sure"; "okay"; "ok"]);
    ("negation", ["no"; "nope"; "not"]);
    ("gratitude", ["thank"; "thanks"; "appreciate"]) ].

(** The inner loop: does some pattern occur in the input? *)
Fixpoint any_pattern (patterns : list string) (input_lower : string) : bool :=
  match patterns with
  | [] => false
  | pattern :: rest =>
      if Py.contains pattern input_lower then true
      else any_pattern rest input_lower
  end.

(** The outer loop: the first intent one of whose patterns occurs. *)
Fixpoint first_intent (table : list (string * list string)) (input_lower : string)
  : option string :=
  match table with
  | [] => None
  | (intent, patterns) :: rest =>
      if any_pattern patterns input_lower then Some intent
      else first_intent rest input_lower
  end.

Definition _identify_intent (user_input : string) : string * Q :=
  let input_lower := Py.lower user_input in
  match first_intent intents input_lower with
  | Some intent => (intent, 0.8%Q)
  | None => ("general_query", 0.5%Q)
  end.

(** The network: a request, and what [requests.post] and then
    [response.json()] do with it. *)
Record Request : Type := {
  url : string;
  request_headers : list (string * string);
  json : value
}.

Inductive Body : Type :=
| NotJson (e : exn)
| Json (response_data : value).

Inductive Outcome : Type :=
| PostRaises (e : exn)
| Response (status_code : Z) (body : Body).

Record World : Type := {
  now_received : datetime;
  now_replied : datetime;
  requests_post : Request -> Outcome
}.

Definition API_URL : string :=
  "https://api-inference.huggingface.co/models/facebook/blenderbot-400M-distill".

Definition clarification : string :=
  "I apologize, but I need more context to provide a helpful response. Could you please elaborate?".

Definition unavailable : string :=
  "I apologize, but I'm having trouble accessing my knowledge base right now.".

Definition api_request (self : EllaBella) (user_input : string) : Request :=
  {| url := API_URL;
     request_headers := headers self;
     json := VDict [ ("inputs", VStr user_input);
                     ("parameters",
                      VDict [ ("max_length", VInt 100);
                              ("temperature", VFloat 0.7%Q);
                              ("top_p", VFloat 0.9%Q) ]) ] |}.

Definition _get_api_response (w : World) (user_input : string) : M value :=
  try_except
    (self <- this ;;
     match requests_post w (api_request self user_input) with
     | PostRaises e => raise e
     | Response status_code body =>
         if (status_code =? 200)%Z then
           match body with
           | NotJson e => raise e
           | Json response_data =>
               match response_data with
               | VList (first :: _) =>
                   d <- lift (Py.dict_method "get" first) ;;
                   ret (Py.get d "generated_text" (VStr ""))
               | _ => ret (VStr clarification)
               end
           end
         else ret (VStr clarification)
     end)
    (fun e =>
       logging ERROR ("API error: " ++ str_exn e) ;;
       ret (VStr unavailable)).

Definition no_response : string :=
  "I apologize, but I'm having trouble generating a response right now.".

Definition _format_response (text : value) : result string :=
  if negb (Py.truthy text) then Ok no_response
  else
    match Py.str_method "replace" text with
    | Raise e => Raise e
    | Ok s =>
        let text := Py.strip (Py.replace "Assistant:" "" (Py.replace "EllaBella:" "" s)) in
        match Py.split Py.nl text with
        | Raise e => Raise e
        | Ok lines =>
            let cleaned_text :=
              Py.join " "
                (map Py.strip
                   (filter (fun line => negb (String.eqb (Py.strip line) "")) lines)) in
            if (500 <? String.length cleaned_text)%nat
            then Ok (Py.take 497 cleaned_text ++ "...")
            else Ok cleaned_text
        end
    end.

Definition add_message (now : datetime) (content sender : string) : M unit :=
  fun self =>
    logging INFO ("New message from " ++ sender ++ ": " ++ Py.take 50 content ++ "...")
      {| api_token := api_token self;
         headers := headers self;
         conversation_history :=
           (conversation_history self
              ++ [{| content := content; timestamp := now; sender := sender |}])%list;
         logfile := logfile self |}.

Definition greeting_reply : string := "Hello! How can I help you today?".
Definition farewell_reply : string := "Goodbye! Have a great day!".
Definition gratitude_reply : string :=
  "You're welcome! Is there anything else you'd like to know?".
Definition apology : string :=
  "I apologize, but I encountered an error while processing your request.".

(** The [if]/[elif] chain of [generate_response] that picks the response. *)
Definition dispatch (w : World) (user_input : string) : M value :=
  let '(intent, confidence) := _identify_intent user_input in
  if intent =? "greeting" then ret (VStr greeting_reply)
  else if intent =? "about_bot" then ret (KnowledgeBase.get_knowledge "about_me")
  else if intent =? "farewell" then ret (VStr farewell_reply)
  else if intent =? "gratitude" then ret (VStr gratitude_reply)
  else if Py.contains "tell me about" (Py.lower user_input) then
    pieces <- lift (Py.split "tell me about" (Py.lower user_input)) ;;
    after <- lift (Py.last_item pieces) ;;
    let topic := Py.strip after in
    let knowledge := KnowledgeBase.get_knowledge topic in
    if Py.truthy knowledge then ret knowledge
    else _get_api_response w user_input
  else _get_api_response w user_input.

(** The body of the [try] of [generate_response]. *)
Definition turn_body (w : World) (user_input : string) : M string :=
  response <- dispatch w user_input ;;
  lift (_format_response response).

Definition generate_response (w : World) (user_input : string) : M string :=
  add_message (now_received w) user_input "user" ;;
  response <- try_except (turn_body w user_input)
                (fun e =>
                   logging ERROR ("Error generating response: " ++ str_exn e) ;;
                   ret apology) ;;
  add_message (now_replied w) response "EllaBella" ;;
  ret response.

(** [get_conversation_summary]; [isoformat] renders an instant. *)
Definition summary_entry (isoformat : datetime -> string) (msg : Message)
  : list (string * value) :=
  [ ("content", VStr (content msg));
    ("timestamp", VStr (isoformat (timestamp msg)));
    ("sender", VStr (sender msg)) ].

Definition get_conversation_summary (isoformat : datetime -> string)
  (self : EllaBella) : list (list (string * value)) :=
  map (summary_entry isoformat) (Py.last_n 10 (conversation_history self)).

(** A session: one [generate_response] per input, each in its own world. *)
Fixpoint session (turns : list (World * string)) (self : EllaBella) : EllaBella :=
  match turns with
  | [] => self
  | (w, user_input) :: rest => session rest (snd (generate_response w user_input self))
  end.

(** ** Vocabulary of the specification *)

(** [sub] occurs in [s] as a substring. *)
Definition occurs (sub s : string) : Prop :=
  exists pre post, s = pre ++ sub ++ post.

(** Some keyword phrase of an intent occurs in the input. *)
Definition intent_matches (patterns : list string) (s : string) : Prop :=
  exists pattern, In pattern patterns /\ occurs pattern s.

(** A key qualifies for a topic by the partial rule, in either direction. *)
Definition qualifies (key topic_key : string) : Prop :=
  occurs key topic_key \/ occurs topic_key key.

(** [s * n] *)
Fixpoint repeat_string (s : string) (n : nat) : string :=
  match n with
  | O => EmptyString
  | S k => s ++ repeat_string s k
  end.

(** The spec's sentence on long input, read for every 600-character
    single-line string. *)
Definition long_line_always_truncated : Prop :=
  forall s : string,
    String.length s = 600 ->
    Py.contains Py.nl s = false ->
    exists r,
      _format_response (VStr s) = Ok r
      /\ String.length r = 500
      /\ Py.take 497 r = Py.take 497 s
      /\ Py.drop 497 r = "...".

(** The spec's sentence on the remote call, read as: whatever the
    endpoint answers, the call returns the [generated_text] field of the
    first element of a 200 list body, or one of the two fixed strings. *)
Definition api_returns_field_or_fixed_string : Prop :=
  forall (w : World) (user_input : string) (self : EllaBella),
    let r := fst (_get_api_response w user_input self) in
    (exists d rest v,
        requests_post w (api_request self user_input)
        = Response 200 (Json (VList (VDict d :: rest)))
        /\ Py.lookup "generated_text" d = Some v
        /\ r = Ok v)
    \/ r = Ok (VStr clarification)
    \/ r = Ok (VStr unavailable).

(** The state after the [except] branch of the remote call logged [e]. *)
Definition api_error (self : EllaBella) (e : exn) : EllaBella :=
  snd (logging ERROR ("API error: " ++ str_exn e) self).

(** An operation that leaves the conversation history as it is. *)
Definition keeps_history {A : Type} (m : M A) : Prop :=
  forall self, conversation_history (snd (m self)) = conversation_history self.

(** An operation that at most appends to the conversation history. *)
Definition appends_only {A : Type} (m : M A) : Prop :=
  forall self, exists added,
    conversation_history (snd (m self))
    = (conversation_history self ++ added)%list.

(** Three worlds to run the program in: the endpoint answers 503, the
    network is down, the endpoint answers 200 with [[{}]]. *)
Definition server_error : World :=
  {| now_received := 0%Z; now_replied := 1%Z;
     requests_post := fun _ => Response 503 (Json VNone) |}.

Definition no_network : World :=
  {| now_received := 0%Z; now_replied := 1%Z;
     requests_post := fun _ => PostRaises (Exn "ConnectionError" "connection refused") |}.

Definition empty_object_answer : World :=
  {| now_received := 0%Z; now_replied := 1%Z;
     requests_post := fun _ => Response 200 (Json (VList [VDict []])) |}.

(** Whitespace at the two ends of a string. *)
Fixpoint all_space (s : string) : bool :=
  match s with
  | EmptyString => true
  | String c rest => Py.isspace c && all_space rest
  end.

Definition starts_with_space (s : string) : bool :=
  match s with
  | EmptyString => false
  | String c _ => Py.isspace c
  end.

Fixpoint ends_with_space (s : string) : bool :=
  match s with
  | EmptyString => false
  | String c rest =>
      match rest with
      | EmptyString => Py.isspace c
      | String _ _ => ends_with_space rest
      end
  end.

(** The state once the user's message of a turn has been recorded. *)
Definition received (w : World) (user_input : string) (self : EllaBella) : EllaBella :=
  snd (add_message (now_received w) user_input "user" self).

(** The two entries a turn adds to the conversation history. *)
Definition turn_entries (w : World) (user_input response : string) : list Message :=
  [ {| content := user_input; timestamp := now_received w; sender := "user" |};
    {| content := response; timestamp := now_replied w; sender := "EllaBella" |} ].

(** The intent is none of the four that are answered with a canned or
    fixed-key response. *)
Definition not_canned (intent : string) : Prop :=
  intent <> "greeting" /\ intent <> "about_bot"
  /\ intent <> "farewell" /\ intent <> "gratitude".

(** [s] is [pre ++ sub ++ post] and no occurrence of [sub] in [s] starts
    further right. *)
Definition is_last_occurrence (sub s pre post : string) : Prop :=
  s = pre ++ sub ++ post
  /\ forall pre' post', s = pre' ++ sub ++ post' -> String.length pre' <= String.length pre.

(** The spec's dispatch rule 5, read with the topic taken after the last
    occurrence of the phrase in the lowercased input. *)
Definition topic_follows_last_occurrence : Prop :=
  forall (w : World) (user_input : string) (self : EllaBella) (pre post : string),
    not_canned (fst (_identify_intent user_input)) ->
    is_last_occurrence "tell me about" (Py.lower user_input) pre post ->
    let knowledge := KnowledgeBase.get_knowledge (Py.strip post) in
    (knowledge <> VNone -> dispatch w user_input self = (Ok knowledge, self))
    /\ (knowledge = VNone ->
        dispatch w user_input self = _get_api_response w user_input self).

(** ** Start-up: preferences, the sentiment model *)

(** [except C as e]: the handler runs when the class of the exception is
    [C]; the two classes caught by name in this program,
    [FileNotFoundError] and [json.JSONDecodeError], have no subclasses in
    the standard library. *)
Definition except_class {A : Type} (cls : string) (body : result A)
  (handler : exn -> result A) : result A :=
  match body with
  | Ok a => Ok a
  | Raise e => if class_name e =? cls then handler e else Raise e
  end.

(** What [json.load(f)] does with the opened file, and what
    [open('user_preferences.json', 'r')] does before that. *)
Inductive Load : Type :=
| LoadRaises (e : exn)
| Loaded (data : value).

Inductive OpenFile : Type :=
| OpenRaises (e : exn)
| Opened (load : Load).

Definition default_preferences : value :=
  VDict [ ("name", VStr "User");
          ("preferences",
           VDict [ ("theme", VStr "light");
                   ("notification_enabled", VBool true);
                   ("language", VStr "en") ]) ].

(** [self._save_default_preferences(...)]: the class defines no method of
    that name, so looking the attribute up on the object raises. *)
Definition _save_default_preferences (preferences : value) : result unit :=
  Raise (Exn "AttributeError"
           "'EllaBella' object has no attribute '_save_default_preferences'").

Definition _load_preferences (file : OpenFile) : result value :=
  except_class "FileNotFoundError"
    match file with
    | OpenRaises e => Raise e
    | Opened load =>
        except_class "JSONDecodeError"
          match load with
          | LoadRaises e => Raise e
          | Loaded data => Ok data
          end
          (fun _ =>
             match _save_default_preferences default_preferences with
             | Ok _ => Ok default_preferences
             | Raise e => Raise e
             end)
    end
    (fun _ =>
       match _save_default_preferences default_preferences with
       | Ok _ => Ok default_preferences
       | Raise e => Raise e
       end).

(** The sentiment pipeline, called on a text: it returns a value or
    raises.  A pipeline object is truthy. *)
Definition Analyzer : Type := string -> result value.

(** The whole object: the part the turns use, the preferences and the
    analyzer, [None] when the model could not be loaded. *)
Record Chatbot : Type := {
  core : EllaBella;
  user_preferences : value;
  sentiment_analyzer : option Analyzer
}.

(** What construction finds: the preferences file and the outcome of
    [pipeline("sentiment-analysis", ...)]. *)
Record Startup : Type := {
  preferences_file : OpenFile;
  pipeline : result Analyzer
}.

(** [EllaBella.__init__] in full; the log starts empty. *)
Definition __init__ (st : Startup) (token : string) : result Chatbot :=
  match _load_preferences (preferences_file st) with
  | Raise e => Raise e
  | Ok preferences =>
      match pipeline st with
      | Ok analyzer =>
          Ok {| core := init token;
                user_preferences := preferences;
                sentiment_analyzer := Some analyzer |}
      | Raise e =>
          Ok {| core := snd (logging ERROR
                               ("Error loading sentiment model: " ++ str_exn e)
                               (init token));
                user_preferences := preferences;
                sentiment_analyzer := None |}
      end
  end.

(** [v[0]] *)
Definition subscript0 (v : value) : result value :=
  match v with
  | VList (x :: _) => Ok x
  | VList [] => Raise (Exn "IndexError" "list index out of range")
  | VStr (String c _) => Ok (VStr (String c EmptyString))
  | VStr EmptyString => Raise (Exn "IndexError" "string index out of range")
  | VDict _ => Raise (Exn "KeyError" "0")
  | _ => Raise (Exn "TypeError" ("'" ++ Py.type_name v ++ "' object is not subscriptable"))
  end.

Definition analyze_sentiment (analyzer : option Analyzer) (text : string) : M value :=
  match analyzer with
  | Some call =>
      try_except
        (result <- lift (call text) ;;
         lift (subscript0 result))
        (fun e =>
           logging ERROR ("Error analyzing sentiment: " ++ str_exn e) ;;
           ret VNone)
  | None => ret VNone
  end.

(** ** The command line *)

(** [print(x)] writes [x] and a line break to standard output. *)
Definition print (x : string) : string := x ++ Py.nl.

(** [user_input.lower() in ['quit', 'exit', 'bye']] *)
Definition is_quit (user_input : string) : bool :=
  existsb (String.eqb (Py.lower user_input)) ["quit"; "exit"; "bye"].

Definition banner : string :=
  "EllaBella: Hello! I'm EllaBella, your personal AI assistant. How can I help you today?".

Definition goodbye : string := "EllaBella: Goodbye! Have a great day!".

(** The [while True] loop of [main].  Standard input is the list of lines
    still to come, each with the world its turn would run in; [input]
    writes its prompt and raises [EOFError] when no line is left.  The
    result is the way the loop ends, the chatbot then, and what was written
    to standard output. *)
Fixpoint chat_loop (stdin : list (World * string)) (self : EllaBella)
  : result unit * EllaBella * list string :=
  match stdin with
  | [] => (Raise (Exn "EOFError" "EOF when reading a line"), self, ["You: "])
  | (w, line) :: rest =>
      let user_input := Py.strip line in
      if is_quit user_input then (Ok tt, self, ["You: "; print goodbye])
      else
        match generate_response w user_input self with
        | (Ok response, self') =>
            let '(status, final, written) := chat_loop rest self' in
            (status, final, "You: " :: print ("EllaBella: " ++ response) :: written)
        | (Raise e, self') => (Raise e, self', ["You: "])
        end
  end.

(** One run of the program: what it wrote to standard output, the log and
    the conversation history at the end, and whether it returned or
    raised. *)
Record Run : Type := {
  stdout : list string;
  log : list LogRecord;
  history : list Message;
  status : result unit
}.

(** [main], given the value of the environment variable, what
    construction finds, and standard input. *)
Definition main (getenv : option string) (st : Startup)
  (stdin : list (World * string)) : Run :=
  match getenv with
  | None | Some EmptyString =>
      {| stdout := []; log := []; history := [];
         status := Raise (Exn "ValueError"
                            "Please set HUGGINGFACE_API_TOKEN environment variable") |}
  | Some api_token =>
      match __init__ st api_token with
      | Raise e =>
          {| stdout := [print ("An error occurred: " ++ str_exn e)];
             log := [{| levelname := ERROR; message := "Fatal error: " ++ str_exn e |}];
             history := [];
             status := Raise e |}
      | Ok chatbot =>
          match chat_loop stdin (core chatbot) with
          | (Ok _, final, written) =>
              {| stdout := print banner :: written;
                 log := logfile final;
                 history := conversation_history final;
                 status := Ok tt |}
          | (Raise e, final, written) =>
              {| stdout := (print banner :: written
                              ++ [print ("An error occurred: " ++ str_exn e)])%list;
                 log := (logfile final
                           ++ [{| levelname := ERROR;
                                  message := "Fatal error: " ++ str_exn e |}])%list;
                 history := conversation_history final;
                 status := Raise e |}
          end
      end
  end.

(** ** Vocabulary of the further properties *)

(** A string that is not empty and has no whitespace at either end. *)
Definition solid (s : string) : Prop :=
  s <> "" /\ starts_with_space s = false /\ ends_with_space s = false.

(** The knowledge texts once formatted. *)
Definition about_me_reply : string :=
  "I'm EllaBella, an AI assistant designed to help answer questions and provide information on various topics. I aim to be helpful while being clear about my capabilities and limitations.".

Definition usa_reply : string :=
  "The United States of America (USA) is a federal republic consisting of 50 states, a federal district, and various territories. It is the world's third-largest country by total area and population. The capital is Washington, D.C., and the largest city is New York City. The USA is known for its diverse geography, multicultural population, strong economy, and significant global influence in politics, culture, and technology.".

(** The response of the four intents that are answered without a lookup
    of the user's words. *)
Definition canned_reply (intent : string) : option string :=
  if intent =? "greeting" then Some greeting_reply
  else if intent =? "about_bot" then Some about_me_reply
  else if intent =? "farewell" then Some farewell_reply
  else if intent =? "gratitude" then Some gratitude_reply
  else None.

(** The state after a turn that answered [response] without logging
    anything but the two messages. *)
Definition answered (w : World) (user_input response : string) (self : EllaBella)
  : EllaBella :=
  snd (add_message (now_replied w) response "EllaBella" (received w user_input self)).

Definition solidb (s : string) : bool :=
  negb (s =? "") && negb (starts_with_space s) && negb (ends_with_space s).

(** The log line [add_message] writes. *)
Definition info_line (who text : string) : LogRecord :=
  {| levelname := INFO;
     message := "New message from " ++ who ++ ": " ++ Py.take 50 text ++ "..." |}.

(** The senders of [n] whole turns. *)
Definition turn_senders (n : nat) : list string :=
  concat (repeat ["user"; "EllaBella"] n).

(** The lines of standard input as [main] hands them to the chatbot. *)
Definition typed (stdin : list (World * string)) : list (World * string) :=
  map (fun turn => (fst turn, Py.strip (snd turn))) stdin.

(** The responses of a sequence of turns. *)
Fixpoint replies (turns : list (World * string)) (self : EllaBella) : list string :=
  match turns with
  | [] => []
  | (w, user_input) :: rest =>
      match generate_response w user_input self with
      | (Ok r, self') => r :: replies rest self'
      | (Raise _, _) => []
      end
  end.

(** What one turn adds to standard output. *)
Definition exchange (response : string) : list string :=
  ["You: "; print ("EllaBella: " ++ response)].

(** The messages a sequence of turns records: for each turn the user's
    input and then the response the turn gave, stamped with the turn's two
    clock readings. *)
Definition turn_history (turns : list (World * string)) (self : EllaBella)
  : list Message :=
  flat_map (fun answered_turn =>
              turn_entries (fst (fst answered_turn)) (snd (fst answered_turn))
                (snd answered_turn))
    (combine turns (replies turns self)).

(** No line of standard input is one of the three quit commands. *)
Definition never_quits (stdin : list (World * string)) : Prop :=
  forall w line, In (w, line) stdin -> is_quit (Py.strip line) = false.

(** The exception of the missing [_save_default_preferences]. *)
Definition no_save_method : exn :=
  Exn "AttributeError"
      "'EllaBella' object has no attribute '_save_default_preferences'".

(** The state after the [except] branch of [analyze_sentiment] logged [e]. *)
Definition sentiment_error (self : EllaBella) (e : exn) : EllaBella :=
  snd (logging ERROR ("Error analyzing sentiment: " ++ str_exn e) self).

(** A preferences file that is there and parses, a pipeline that loads
    and answers, and one that does not load. *)
Definition positive : Analyzer :=
  fun _ => Ok (VList [VDict [("label", VStr "POSITIVE"); ("score", VFloat 0.99%Q)]]).

Definition good_start : Startup :=
  {| preferences_file := Opened (Loaded (VDict [("name", VStr "Ada")]));
     pipeline := Ok positive |}.

Definition fresh_checkout : Startup :=
  {| preferences_file := OpenRaises (Exn "FileNotFoundError" "No such file or directory");
     pipeline := Ok positive |}.

Definition no_model : Startup :=
  {| preferences_file := Opened (Loaded (VDict [("name", VStr "Ada")]));
     pipeline := Raise (Exn "OSError" "model not found") |}.

(** ** The built-ins on small inputs *)

Example lower_ex : Py.lower "Tell ME About_X" = "tell me about_x".
Proof. reflexivity. Qed.
Example strip_ex : Py.strip ("  a b " ++ Py.nl) = "a b".
Proof. reflexivity. Qed.
Example split_ex :
  Py.split "tell me about" "tell me aboutell me about" = Ok [""; "ell me about"].
Proof. reflexivity. Qed.
Example split_ex2 : Py.split Py.nl ("a" ++ Py.nl ++ Py.nl ++ "b" ++ Py.nl) = Ok ["a"; ""; "b"; ""].
Proof. reflexivity. Qed.
Example replace_ex : Py.replace "aa" "b" "aaa" = "ba".
Proof. reflexivity. Qed.
Example replace_ex2 :
  Py.replace "Assistant:" "" (Py.replace "EllaBella:" "" "AssisEllaBella:tant:x") = "x".
Proof. reflexivity. Qed.

(** ** Strings *)

Lemma append_nil_r (s : string) : s ++ "" = s.
Proof. induction s as [|c s IH]; simpl; [reflexivity | now rewrite IH]. Qed.

Lemma append_assoc (a b c : string) : (a ++ b) ++ c = a ++ b ++ c.
Proof. induction a as [|x a IH]; simpl; [reflexivity | now rewrite IH]. Qed.

Lemma length_append (a b : string) :
  String.length (a ++ b) = String.length a + String.length b.
Proof. induction a as [|x a IH]; simpl; [reflexivity | now rewrite IH]. Qed.

Lemma lower_append (a b : string) : Py.lower (a ++ b) = Py.lower a ++ Py.lower b.
Proof. induction a as [|x a IH]; simpl; [reflexivity | now rewrite IH]. Qed.

Lemma startswith_spec (p s : string) :
  Py.startswith p s = true <-> exists rest, s = p ++ rest.
Proof.
  revert s; induction p as [|a p IH]; intros s; simpl.
  - split; [intros _; now exists s | reflexivity].
  - destruct s as [|b s].
    + split; [discriminate | intros [rest H]; discriminate].
    + rewrite andb_true_iff, Ascii.eqb_eq, IH. split.
      * intros [-> [rest ->]]. now exists rest.
      * intros [rest H]. injection H as -> ->. split; [reflexivity | now exists rest].
Qed.

Lemma contains_unfold (sub s : string) :
  Py.contains sub s
  = Py.startswith sub s
    || match s with EmptyString => false | String _ rest => Py.contains sub rest end.
Proof. destruct s; reflexivity. Qed.

Lemma contains_spec (sub s : string) : Py.contains sub s = true <-> occurs sub s.
Proof.
  split.
  - induction s as [|c s IH]; rewrite contains_unfold, orb_true_iff.
    + intros [H | H]; [| discriminate].
      apply startswith_spec in H as [rest ->]. now exists "", rest.
    + intros [H | H].
      * apply startswith_spec in H as [rest ->]. now exists "", rest.
      * destruct (IH H) as (pre & post & ->). now exists (String c pre), post.
  - intros (pre & post & ->). induction pre as [|c pre IH].
    + rewrite contains_unfold. simpl.
      replace (Py.startswith sub (sub ++ post)) with true; [reflexivity |].
      symmetry. apply startswith_spec. now exists post.
    + simpl. rewrite IH. apply orb_true_r.
Qed.

Lemma contains_false (sub s : string) : Py.contains sub s = false <-> ~ occurs sub s.
Proof.
  split; intros H.
  - intros Ho. apply contains_spec in Ho. congruence.
  - destruct (Py.contains sub s) eqn:E; [| reflexivity].
    exfalso. apply H. now apply contains_spec.
Qed.

(** [strip] removes whitespace, and only whitespace, from both ends. *)
Lemma lstrip_spec (s : string) :
  exists l,
    s = l ++ Py.lstrip s /\ all_space l = true
    /\ starts_with_space (Py.lstrip s) = false.
Proof.
  induction s as [|c s (l & Hs & Hl & Hstart)]; [now exists "" |].
  cbn [Py.lstrip]. destruct (Py.isspace c) eqn:E.
  - exists (String c l). cbn. rewrite E, Hl, <- Hs. now repeat split.
  - exists "". now repeat split.
Qed.

Lemma rstrip_all_space (s : string) : all_space s = true -> Py.rstrip s = "".
Proof.
  induction s as [|c s IH]; [reflexivity |].
  cbn [all_space Py.rstrip]. intros H. apply andb_true_iff in H as [Hc Hs].
  now rewrite (IH Hs), Hc.
Qed.

Lemma rstrip_spec (s : string) :
  exists r,
    s = Py.rstrip s ++ r /\ all_space r = true
    /\ ends_with_space (Py.rstrip s) = false
    /\ starts_with_space (Py.rstrip s) = starts_with_space s && negb (all_space s).
Proof.
  induction s as [|c s (r & Hs & Hr & Hend & _)]; [now exists "" |].
  cbn [Py.rstrip]. destruct (Py.rstrip s) as [|d kept] eqn:Ekept.
  - cbn in Hs. subst r. destruct (Py.isspace c) eqn:E.
    + exists (String c s). cbn. rewrite E, Hr. now repeat split.
    + exists s. cbn. rewrite E. now repeat split.
  - exists r. split; [cbn; now rewrite Hs at 1 |]. split; [exact Hr |].
    split; [exact Hend |].
    assert (Hs' : all_space s = false).
    { destruct (all_space s) eqn:Ea; [| reflexivity].
      rewrite (rstrip_all_space s Ea) in Ekept. discriminate Ekept. }
    cbn. rewrite Hs'. destruct (Py.isspace c); reflexivity.
Qed.

Lemma strip_spec (s : string) :
  exists l r,
    s = l ++ Py.strip s ++ r
    /\ all_space l = true /\ all_space r = true
    /\ starts_with_space (Py.strip s) = false
    /\ ends_with_space (Py.strip s) = false.
Proof.
  unfold Py.strip.
  destruct (lstrip_spec s) as (l & Hs & Hl & Hstart).
  destruct (rstrip_spec (Py.lstrip s)) as (r & Hs' & Hr & Hend & Hstart').
  exists l, r. rewrite <- Hs'. repeat split; try assumption.
  now rewrite Hstart', Hstart.
Qed.

(** ** IntentClassifier *)

Lemma any_pattern_spec (patterns : list string) (s : string) :
  any_pattern patterns s = true <-> intent_matches patterns s.
Proof.
  induction patterns as [|p ps IH]; simpl.
  - split; [discriminate | intros (k & [] & _)].
  - destruct (Py.contains p s) eqn:E.
    + split; [intros _ | reflexivity].
      exists p. split; [now left | now apply contains_spec].
    + rewrite IH. split.
      * intros (k & Hin & Hk). exists k. split; [now right | exact Hk].
      * intros (k & [<- | Hin] & Hk).
        -- apply contains_spec in Hk. congruence.
        -- now exists k.
Qed.

Lemma first_intent_some (table : list (string * list string)) (s intent : string) :
  first_intent table s = Some intent ->
  exists earlier patterns later,
    table = (earlier ++ (intent, patterns) :: later)%list
    /\ intent_matches patterns s
    /\ forall i ps, In (i, ps) earlier -> ~ intent_matches ps s.
Proof.
  induction table as [|[i ps] rest IH]; simpl; [discriminate |].
  destruct (any_pattern ps s) eqn:E.
  - intros [= <-]. exists [], ps, rest.
    split; [reflexivity | split; [now apply any_pattern_spec | intros ? ? []]].
  - intros H. destruct (IH H) as (earlier & patterns & later & -> & Hm & Hno).
    exists ((i, ps) :: earlier), patterns, later.
    split; [reflexivity | split; [exact Hm |]].
    intros j qs [[= <- <-] | Hin].
    + intros Hq. apply any_pattern_spec in Hq. congruence.
    + exact (Hno j qs Hin).
Qed.

Lemma first_intent_none (table : list (string * list string)) (s : string) :
  first_intent table s = None ->
  forall i ps, In (i, ps) table -> ~ intent_matches ps s.
Proof.
  induction table as [|[i ps] rest IH]; simpl; [intros _ ? ? [] |].
  destruct (any_pattern ps s) eqn:E; [discriminate |].
  intros H j qs [[= <- <-] | Hin].
  - intros Hq. apply any_pattern_spec in Hq. congruence.
  - exact (IH H j qs Hin).
Qed.

(** Every keyword phrase of the table is already in lower case. *)
Lemma patterns_lower (i : string) (ps : list string) (k : string) :
  In (i, ps) intents -> In k ps -> Py.lower k = k.
Proof.
  unfold intents. simpl.
  intros H Hk.
  repeat (destruct H as [[= <- <-] | H];
          [simpl in Hk; repeat (destruct Hk as [<- | Hk]; [reflexivity |]); destruct Hk |]).
  destruct H.
Qed.

Lemma intent_matches_lower (i : string) (ps : list string) (s : string) :
  In (i, ps) intents -> intent_matches ps s -> intent_matches ps (Py.lower s).
Proof.
  intros Hi (k & Hk & pre & post & ->).
  exists k. split; [exact Hk |].
  exists (Py.lower pre), (Py.lower post).
  now rewrite !lower_append, (patterns_lower i ps k Hi Hk).
Qed.

Lemma intents_names :
  map fst intents
  = ["greeting"; "about_bot"; "farewell"; "about_topic"; "personal_info";
     "affirmation"; "negation"; "gratitude"].
Proof. reflexivity. Qed.

Lemma intents_NoDup : NoDup (map fst intents).
Proof.
  rewrite intents_names.
  repeat (constructor; [simpl; intros H;
    repeat (destruct H as [H | H]; [discriminate H |]); exact H |]).
  constructor.
Qed.

(** C1. [_identify_intent] lowercases the input and returns the first
    intent of the table, in its definition order, one of whose keyword
    phrases occurs in the lowercased input, with confidence 0.8, and
    [general_query] with confidence 0.5 when no keyword of any intent
    occurs.  When the input contains keywords of two intents the earlier
    entry wins over the later one, and the confidence is always one of the
    two constants. *)
Theorem identify_intent_first_match (user_input : string) :
  let input_lower := Py.lower user_input in
  ((exists earlier intent patterns later,
       intents = (earlier ++ (intent, patterns) :: later)%list
       /\ intent_matches patterns input_lower
       /\ (forall i ps, In (i, ps) earlier -> ~ intent_matches ps input_lower)
       /\ _identify_intent user_input = (intent, 0.8%Q))
   \/ ((forall i ps, In (i, ps) intents -> ~ intent_matches ps input_lower)
       /\ _identify_intent user_input = ("general_query", 0.5%Q)))
  /\ map fst intents
     = ["greeting"; "about_bot"; "farewell"; "about_topic"; "personal_info";
        "affirmation"; "negation"; "gratitude"]
  /\ (forall earlier a pa between b pb later,
         intents = (earlier ++ (a, pa) :: between ++ (b, pb) :: later)%list ->
         intent_matches pa user_input ->
         intent_matches pb user_input ->
         In (fst (_identify_intent user_input)) (map fst (earlier ++ [(a, pa)])%list)
         /\ fst (_identify_intent user_input) <> b
         /\ ((forall i ps, In (i, ps) earlier -> ~ intent_matches ps input_lower) ->
             _identify_intent user_input = (a, 0.8%Q)))
  /\ (snd (_identify_intent user_input) = 0.8%Q
      \/ snd (_identify_intent user_input) = 0.5%Q).
Proof.
  intros input_lower.
  assert (Hmain :
    (exists earlier intent patterns later,
       intents = (earlier ++ (intent, patterns) :: later)%list
       /\ intent_matches patterns input_lower
       /\ (forall i ps, In (i, ps) earlier -> ~ intent_matches ps input_lower)
       /\ _identify_intent user_input = (intent, 0.8%Q))
    \/ ((forall i ps, In (i, ps) intents -> ~ intent_matches ps input_lower)
       /\ _identify_intent user_input = ("general_query", 0.5%Q))).
  { unfold _identify_intent. fold input_lower.
    destruct (first_intent intents input_lower) as [intent|] eqn:E.
    - left. destruct (first_intent_some _ _ _ E) as (earlier & ps & later & H1 & H2 & H3).
      now exists earlier, intent, ps, later.
    - right. split; [exact (first_intent_none _ _ E) | reflexivity]. }
  split; [exact Hmain |]. split; [exact intents_names |]. split.
  - intros earlier a pa between b pb later Htab Ha Hb.
    assert (Hina : In (a, pa) intents)
      by (rewrite Htab; apply in_or_app; right; now left).
    assert (Hinb : In (b, pb) intents)
      by (rewrite Htab; apply in_or_app; right; right; apply in_or_app; right; now left).
    apply (intent_matches_lower a) in Ha; [| exact Hina].
    apply (intent_matches_lower b) in Hb; [| exact Hinb].
    fold input_lower in Ha, Hb.
    destruct Hmain as [(e0 & i0 & p0 & l0 & Htab0 & Hm0 & Hno0 & Hres) | [Hnone _]];
      [| exfalso; exact (Hnone a pa Hina Ha)].
    rewrite Hres. simpl.
    (* the winning entry is at or before the entry of [a] *)
    assert (Hpos : In (i0, p0) (earlier ++ [(a, pa)])%list).
    { assert (Hcases : In (i0, p0) (earlier ++ [(a, pa)])%list
                       \/ In (a, pa) e0).
      { clear - Htab Htab0.
        rewrite Htab in Htab0. clear Htab.
        revert e0 Htab0. induction earlier as [|x earlier IH]; intros e0 Htab0.
        - destruct e0 as [|y e0].
          + simpl in Htab0. injection Htab0 as <- <- _. left. now left.
          + simpl in Htab0. injection Htab0 as <- _. right. now left.
        - destruct e0 as [|y e0].
          + simpl in Htab0. injection Htab0 as -> _. left. now left.
          + simpl in Htab0. injection Htab0 as <- Htab0.
            destruct (IH e0 Htab0) as [H | H]; [left; now right | right; now right]. }
      destruct Hcases as [H | H]; [exact H | exfalso; exact (Hno0 a pa H Ha)]. }
    split; [apply (in_map fst) in Hpos; exact Hpos |]. split.
    + intros ->.
      pose proof intents_NoDup as Hnd. rewrite Htab in Hnd.
      replace (earlier ++ (a, pa) :: between ++ (b, pb) :: later)%list
        with ((earlier ++ [(a, pa)]) ++ between ++ (b, pb) :: later)%list in Hnd
        by (rewrite <- app_assoc; reflexivity).
      rewrite map_app in Hnd. apply NoDup_app_remove_l in Hnd as Hnd'.
      clear Hnd'. rewrite <- map_app in Hnd.
      apply (in_map fst) in Hpos. simpl in Hpos.
      rewrite map_app in Hnd.
      revert Hpos Hnd. generalize (map fst (earlier ++ [(a, pa)])%list) as names.
      intros names Hpos Hnd.
      induction names as [|n names IH]; [destruct Hpos |].
      simpl in Hnd. apply NoDup_cons_iff in Hnd as [Hn Hnd].
      destruct Hpos as [-> | Hpos]; [| now apply IH].
      apply Hn. apply in_or_app. right. rewrite map_app. apply in_or_app. right. now left.
    + intros Hearlier.
      apply in_app_or in Hpos as [Hpos | [[= -> ->] | []]]; [| reflexivity].
      exfalso. exact (Hearlier i0 p0 Hpos Hm0).
  - destruct Hmain as [(? & ? & ? & ? & _ & _ & _ & ->) | [_ ->]]; [now left | now right].
Qed.

Lemma identify_intent_first_match_witness :
  _identify_intent "hi, thanks" = ("greeting", 0.8%Q)
  /\ fst (_identify_intent "no thanks") <> "gratitude".
Proof.
  split.
  - destruct (identify_intent_first_match "hi, thanks") as (_ & _ & H & _).
    apply (H [] "greeting" (snd (nth 0 intents ("", [])))
             (firstn 6 (skipn 1 intents))
             "gratitude" (snd (nth 7 intents ("", []))) [] eq_refl).
    + exists "hi". split; [simpl; tauto | now exists "", ", thanks"].
    + exists "thanks". split; [simpl; tauto | now exists "hi, ", ""].
    + intros i ps [].
  - destruct (identify_intent_first_match "no thanks") as (_ & _ & H & _).
    apply (H (firstn 6 intents) "negation" (snd (nth 6 intents ("", []))) []
             "gratitude" (snd (nth 7 intents ("", []))) [] eq_refl).
    + exists "no". split; [simpl; tauto | now exists "", " thanks"].
    + exists "thanks". split; [simpl; tauto | now exists "no ", ""].
Defined.

(** ** KnowledgeBase *)

Lemma lookup_some {A : Type} (key : string) (d : list (string * A)) (v : A) :
  Py.lookup key d = Some v -> In (key, v) d.
Proof.
  induction d as [|[k a] rest IH]; simpl; [discriminate |].
  destruct (String.eqb_spec key k) as [-> | Hne].
  - intros [= ->]. now left.
  - intros H. right. now apply IH.
Qed.

Lemma lookup_none {A : Type} (key : string) (d : list (string * A)) :
  Py.lookup key d = None -> ~ In key (map fst d).
Proof.
  induction d as [|[k a] rest IH]; simpl; [intros _ [] |].
  destruct (String.eqb_spec key k) as [-> | Hne]; [discriminate |].
  intros H [Hk | Hin]; [now apply Hne | now apply IH].
Qed.

Lemma qualifies_spec (key topic_key : string) :
  Py.contains key topic_key || Py.contains topic_key key = true
  <-> qualifies key topic_key.
Proof.
  unfold qualifies. now rewrite orb_true_iff, !contains_spec.
Qed.

Lemma partial_match_cases (topic_key : string) (table : list (string * value)) :
  (exists earlier key v later,
      table = (earlier ++ (key, v) :: later)%list
      /\ qualifies key topic_key
      /\ (forall k' v', In (k', v') earlier -> ~ qualifies k' topic_key)
      /\ KnowledgeBase.partial_match topic_key table = v)
  \/ ((forall key v, In (key, v) table -> ~ qualifies key topic_key)
      /\ KnowledgeBase.partial_match topic_key table = VNone).
Proof.
  induction table as [|[key v] rest IH]; simpl.
  - right. split; [intros ? ? [] | reflexivity].
  - destruct (Py.contains key topic_key || Py.contains topic_key key) eqn:E.
    + left. exists [], key, v, rest.
      split; [reflexivity | split; [now apply qualifies_spec |]].
      split; [intros ? ? [] | reflexivity].
    + assert (Hno : ~ qualifies key topic_key)
        by (intros H; apply qualifies_spec in H; congruence).
      destruct IH as [(earlier & k & w & later & -> & Hq & Hearlier & Hres) | [Hnone Hres]].
      * left. exists ((key, v) :: earlier), k, w, later.
        split; [reflexivity | split; [exact Hq |]].
        split; [| exact Hres].
        intros k' v' [[= <- <-] | Hin]; [exact Hno | exact (Hearlier k' v' Hin)].
      * right. split; [| exact Hres].
        intros k' v' [[= <- <-] | Hin]; [exact Hno | exact (Hnone k' v' Hin)].
Qed.

(** C2. [get_knowledge] lowercases and trims the topic; when the result is
    a key of the table it returns that key's value; otherwise it returns the
    value of the first key, in definition order, that occurs in the
    normalized topic or in which the normalized topic occurs; when no key
    qualifies it returns [None], as for ["xyz-not-present"]. *)
Theorem get_knowledge_lookup_rules (topic : string) :
  let topic_key := Py.strip (Py.lower topic) in
  ((exists v,
       In (topic_key, v) KnowledgeBase.knowledge
       /\ KnowledgeBase.get_knowledge topic = v)
   \/ (~ In topic_key (map fst KnowledgeBase.knowledge)
       /\ exists earlier key v later,
           KnowledgeBase.knowledge = (earlier ++ (key, v) :: later)%list
           /\ qualifies key topic_key
           /\ (forall k' v', In (k', v') earlier -> ~ qualifies k' topic_key)
           /\ KnowledgeBase.get_knowledge topic = v)
   \/ (~ In topic_key (map fst KnowledgeBase.knowledge)
       /\ (forall key v, In (key, v) KnowledgeBase.knowledge -> ~ qualifies key topic_key)
       /\ KnowledgeBase.get_knowledge topic = VNone))
  /\ NoDup (map fst KnowledgeBase.knowledge)
  /\ KnowledgeBase.get_knowledge "xyz-not-present" = VNone.
Proof.
  intros topic_key. split; [| split].
  - unfold KnowledgeBase.get_knowledge. fold topic_key.
    destruct (Py.lookup topic_key KnowledgeBase.knowledge) as [v|] eqn:E.
    + left. exists v. split; [now apply lookup_some | reflexivity].
    + right. apply lookup_none in E.
      destruct (partial_match_cases topic_key KnowledgeBase.knowledge)
        as [Hfound | [Hnone Hres]].
      * left. split; [exact E | exact Hfound].
      * right. split; [exact E | split; [exact Hnone | exact Hres]].
  - simpl. repeat (constructor; [simpl; intros H;
      repeat (destruct H as [H | H]; [discriminate H |]); exact H |]).
    constructor.
  - reflexivity.
Qed.

(** C3, as the code has it. [get_knowledge("ABOUT_ME")], and every topic
    that is [about_me] up to case and surrounding whitespace, returns the
    exact text stored under [about_me]; [get_knowledge("about me")], spelled
    with a space, matches no key and returns [None]. *)
Theorem get_knowledge_about_me (topic : string) :
  Py.strip (Py.lower topic) = "about_me" ->
  KnowledgeBase.get_knowledge topic = VStr KnowledgeBase.about_me
  /\ KnowledgeBase.get_knowledge "ABOUT_ME" = VStr KnowledgeBase.about_me
  /\ KnowledgeBase.get_knowledge "about me" = VNone.
Proof.
  intros H. split; [| split; reflexivity].
  unfold KnowledgeBase.get_knowledge. rewrite H. reflexivity.
Qed.

Lemma get_knowledge_about_me_witness :
  KnowledgeBase.get_knowledge ("  About_Me" ++ Py.nl) = VStr KnowledgeBase.about_me
  /\ KnowledgeBase.get_knowledge "ABOUT_ME" = VStr KnowledgeBase.about_me
  /\ KnowledgeBase.get_knowledge "about me" = VNone.
Proof.
  apply (get_knowledge_about_me ("  About_Me" ++ Py.nl)). reflexivity.
Defined.

(** C3 as stated fails: with a space instead of the underscore the topic
    is no key, contains no key and is contained in none. *)
Lemma get_knowledge_about_me_space_absent :
  ~ (KnowledgeBase.get_knowledge "about me" = VStr KnowledgeBase.about_me
     /\ KnowledgeBase.get_knowledge "ABOUT_ME" = VStr KnowledgeBase.about_me).
Proof.
  intros [H _]. vm_compute in H. discriminate H.
Qed.

(** ** ResponseFormatter *)

Lemma length_take (n : nat) (s : string) :
  String.length (Py.take n s) = Nat.min n (String.length s).
Proof.
  revert s; induction n as [|n IH]; intros [|c s]; simpl; try reflexivity.
  now rewrite IH.
Qed.

Lemma take_append (n : nat) (a b : string) :
  n <= String.length a -> Py.take n (a ++ b) = Py.take n a.
Proof.
  revert a; induction n as [|n IH]; intros [|c a] H; simpl in *; try reflexivity; try lia.
  rewrite IH; [reflexivity | lia].
Qed.

Lemma take_take (n : nat) (s : string) : Py.take n (Py.take n s) = Py.take n s.
Proof.
  revert s; induction n as [|n IH]; intros [|c s]; simpl; try reflexivity.
  now rewrite IH.
Qed.

Lemma drop_append (a b : string) : Py.drop (String.length a) (a ++ b) = b.
Proof. induction a as [|c a IH]; simpl; [now destruct b | exact IH]. Qed.

Lemma replace_absent (old new s : string) :
  old <> "" -> Py.contains old s = false -> Py.replace old new s = s.
Proof.
  intros Hold. unfold Py.replace. destruct old as [|a old]; [congruence |].
  induction s as [|c s IH]; [reflexivity |].
  rewrite contains_unfold. intros H. apply orb_false_iff in H as [H1 H2].
  cbn [Py.replace_from]. rewrite H1, (IH H2). reflexivity.
Qed.

Lemma split_from_nonempty (sep : string) (skip : nat) (s : string) :
  Py.split_from sep skip s <> [].
Proof.
  revert skip; induction s as [|c s IH]; intros skip; cbn [Py.split_from];
    [discriminate |].
  destruct skip as [|k]; [| apply IH].
  destruct (Py.startswith sep (String c s)); [discriminate |].
  specialize (IH 0). destruct (Py.split_from sep 0 s); [congruence | discriminate].
Qed.

Lemma split_from_absent (sep s : string) :
  Py.contains sep s = false -> Py.split_from sep 0 s = [s].
Proof.
  induction s as [|c s IH]; [reflexivity |].
  rewrite contains_unfold. intros H. apply orb_false_iff in H as [H1 H2].
  cbn [Py.split_from]. rewrite H1, (IH H2). reflexivity.
Qed.

Lemma join_cons (sep p : string) (ps : list string) :
  ps <> [] -> Py.join sep (p :: ps) = p ++ sep ++ Py.join sep ps.
Proof. destruct ps; [congruence | reflexivity]. Qed.

Lemma join_cons_head (sep : string) (c : ascii) (pieces : list string) :
  pieces <> [] ->
  Py.join sep (Py.cons_head c pieces) = String c (Py.join sep pieces).
Proof.
  destruct pieces as [|p [|q ps]]; [congruence | reflexivity | reflexivity].
Qed.

(** Joining the pieces of a split with the separator gives the text back,
    from the point where the scan stands. *)
Lemma join_split_from (sep : string) (skip : nat) (s : string) :
  sep <> "" ->
  Py.join sep (Py.split_from sep skip s) = Py.drop skip s.
Proof.
  intros Hsep. revert skip; induction s as [|c s IH]; intros skip.
  - now destruct skip.
  - cbn [Py.split_from]. destruct skip as [|k]; [| apply IH].
    destruct (Py.startswith sep (String c s)) eqn:E.
    + rewrite join_cons by apply split_from_nonempty.
      rewrite IH. apply startswith_spec in E as [rest E].
      destruct sep as [|a sep]; [congruence |].
      simpl in E. injection E as <- ->.
      simpl. rewrite Nat.sub_0_r, drop_append. reflexivity.
    + rewrite join_cons_head by apply split_from_nonempty.
      rewrite IH. reflexivity.
Qed.

(** No piece of a split on the line break contains a line break. *)
Lemma split_lines_no_nl (s : string) :
  Forall (fun line => Py.contains Py.nl line = false) (Py.split_from Py.nl 0 s).
Proof.
  induction s as [|c s IH]; [now repeat constructor |].
  cbn [Py.split_from]. destruct (Py.startswith Py.nl (String c s)) eqn:E.
  - constructor; [reflexivity | exact IH].
  - pose proof (split_from_nonempty Py.nl 0 s) as Hne.
    destruct (Py.split_from Py.nl 0 s) as [|p ps]; [congruence |].
    inversion IH as [|? ? Hp Hps]; subst. constructor; [| exact Hps].
    cbn [Py.cons_head]. rewrite contains_unfold, Hp, orb_false_r.
    unfold Py.nl in *. cbn [Py.startswith] in *.
    rewrite andb_true_r in *. exact E.
Qed.

(** The cleaned text of the formatter: role labels removed, lines
    stripped, blank lines dropped, the rest joined by single spaces. *)
Lemma format_response_str (s : string) :
  s <> "" ->
  exists lines,
    Py.split Py.nl
      (Py.strip (Py.replace "Assistant:" "" (Py.replace "EllaBella:" "" s))) = Ok lines
    /\ _format_response (VStr s)
       = let cleaned_text :=
           Py.join " "
             (map Py.strip
                (filter (fun line => negb (String.eqb (Py.strip line) "")) lines)) in
         Ok (if (500 <? String.length cleaned_text)%nat
             then Py.take 497 cleaned_text ++ "..."
             else cleaned_text).
Proof.
  intros Hs. eexists. split; [reflexivity |].
  unfold _format_response. cbn [Py.truthy Py.str_method negb].
  destruct (String.eqb_spec s "") as [-> | _]; [congruence |].
  cbn [negb]. unfold Py.split, Py.nl.
  match goal with |- context [if ?b then _ else _] => destruct b end; reflexivity.
Qed.

Lemma format_response_clean_line (s : string) :
  s <> "" ->
  Py.contains Py.nl s = false ->
  Py.contains "EllaBella:" s = false ->
  Py.contains "Assistant:" s = false ->
  Py.strip s = s ->
  _format_response (VStr s)
  = Ok (if (500 <? String.length s)%nat then Py.take 497 s ++ "..." else s).
Proof.
  intros Hs Hnl He Ha Hstrip.
  destruct (format_response_str s Hs) as (lines & Hlines & ->).
  rewrite (replace_absent "EllaBella:" "" s) in Hlines by (congruence || assumption).
  rewrite (replace_absent "Assistant:" "" s) in Hlines by (congruence || assumption).
  rewrite Hstrip in Hlines. unfold Py.split, Py.nl in Hlines.
  fold Py.nl in Hlines. rewrite (split_from_absent _ _ Hnl) in Hlines.
  injection Hlines as <-. cbn [filter]. rewrite Hstrip.
  destruct (String.eqb_spec s "") as [-> | _]; [congruence |].
  cbn [negb map Py.join]. rewrite Hstrip. reflexivity.
Qed.

(** C5, as the code has it. [None] and the empty string give the fixed
    apology.  For any other string every occurrence of ["EllaBella:"] and
    then of ["Assistant:"] is removed, the text is stripped and split on
    line breaks into lines that contain none and that joined by line breaks
    give the text back, each line is stripped, blank lines are dropped and
    the rest joined by single spaces; a result longer than 500 characters is
    cut to its first 497 characters followed by ["..."], so no response
    exceeds 500 characters.  A 600-character single-line input that carries
    no role label and no leading or trailing whitespace yields exactly 500
    characters, its own first 497 followed by ["..."], and
    ["Line1\n  \nLine2"] yields ["Line1 Line2"]. *)
Theorem format_response_steps (s : string) :
  _format_response VNone = Ok no_response
  /\ _format_response (VStr "") = Ok no_response
  /\ (s <> "" ->
      let text := Py.strip (Py.replace "Assistant:" "" (Py.replace "EllaBella:" "" s)) in
      exists lines r,
        Py.split Py.nl text = Ok lines
        /\ Py.join Py.nl lines = text
        /\ Forall (fun line => Py.contains Py.nl line = false) lines
        /\ _format_response (VStr s) = Ok r
        /\ (let cleaned_text :=
              Py.join " "
                (map Py.strip
                   (filter (fun line => negb (String.eqb (Py.strip line) "")) lines)) in
            (500 < String.length cleaned_text ->
             r = Py.take 497 cleaned_text ++ "..." /\ String.length r = 500)
            /\ (String.length cleaned_text <= 500 -> r = cleaned_text))
        /\ String.length r <= 500)
  /\ (String.length s = 600 ->
      Py.contains Py.nl s = false ->
      Py.contains "EllaBella:" s = false ->
      Py.contains "Assistant:" s = false ->
      Py.strip s = s ->
      exists r,
        _format_response (VStr s) = Ok r
        /\ String.length r = 500
        /\ Py.take 497 r = Py.take 497 s
        /\ Py.drop 497 r = "...")
  /\ _format_response (VStr ("Line1" ++ Py.nl ++ "  " ++ Py.nl ++ "Line2"))
     = Ok "Line1 Line2".
Proof.
  split; [reflexivity |]. split; [reflexivity |]. split; [| split; [| reflexivity]].
  - intros Hs text.
    destruct (format_response_str s Hs) as (lines & Hlines & Hres). fold text in Hlines.
    assert (Hl : lines = Py.split_from Py.nl 0 text)
      by (unfold Py.split, Py.nl in Hlines; injection Hlines as <-; reflexivity).
    assert (Hjoin : Py.join Py.nl lines = text)
      by (rewrite Hl; apply (join_split_from Py.nl 0 text); discriminate).
    assert (Hnonl : Forall (fun line => Py.contains Py.nl line = false) lines)
      by (rewrite Hl; apply split_lines_no_nl).
    cbv zeta in Hres. revert Hres.
    set (cleaned_text :=
           Py.join " "
             (map Py.strip
                (filter (fun line => negb (String.eqb (Py.strip line) "")) lines))).
    destruct (Nat.ltb_spec 500 (String.length cleaned_text)) as [Hlong | Hshort];
      intros Hres.
    + assert (Hlen : String.length (Py.take 497 cleaned_text ++ "...") = 500)
        by (rewrite length_append, length_take, Nat.min_l by lia; reflexivity).
      exists lines, (Py.take 497 cleaned_text ++ "..."). fold cleaned_text.
      repeat (split; [assumption |]).
      split; [split; [intros _; split; [reflexivity | exact Hlen] | lia] | lia].
    + exists lines, cleaned_text. fold cleaned_text.
      repeat (split; [assumption |]).
      split; [split; [lia | reflexivity] | exact Hshort].
  - intros Hlen Hnl He Ha Hstrip.
    assert (Hs : s <> "") by (intros ->; discriminate Hlen).
    rewrite (format_response_clean_line s Hs Hnl He Ha Hstrip), Hlen.
    cbn [Nat.ltb Nat.leb]. eexists. split; [reflexivity |].
    assert (H497 : String.length (Py.take 497 s) = 497)
      by (rewrite length_take; lia).
    split; [rewrite length_append, H497; reflexivity |].
    split.
    + rewrite take_append by lia. apply take_take.
    + rewrite <- H497 at 1. apply drop_append.
Qed.

Lemma format_response_steps_witness :
  exists r,
    _format_response (VStr (repeat_string "a" 600)) = Ok r
    /\ String.length r = 500
    /\ Py.take 497 r = Py.take 497 (repeat_string "a" 600)
    /\ Py.drop 497 r = "...".
Proof.
  apply (format_response_steps (repeat_string "a" 600)); vm_compute; reflexivity.
Defined.

(** C5 as stated fails: a line of 600 spaces is single-line and 600
    characters long, and is formatted to the empty string. *)
Lemma long_line_of_spaces_not_truncated : ~ long_line_always_truncated.
Proof.
  intros H.
  destruct (H (repeat_string " " 600)) as (r & Hr & Hlen & _);
    [vm_compute; reflexivity | vm_compute; reflexivity |].
  vm_compute in Hr. injection Hr as <-. discriminate Hlen.
Qed.

(** The role labels are removed wherever they stand, not only in front. *)
Example format_response_label_inside :
  _format_response (VStr "See Assistant: here") = Ok "See  here".
Proof. reflexivity. Qed.

(** ** RemoteCompletion *)

(** Settles one case of the outcome analysis: the premise names either
    the outcome at hand or another one. *)
Ltac outcome_case :=
  intros;
  repeat match goal with
         | H : PostRaises _ = _ |- _ => inversion H; subst; clear H
         | H : Response _ _ = _ |- _ => inversion H; subst; clear H
         | H : _ \/ _ |- _ => destruct H
         | H : VList _ = VList _ |- _ => discriminate H
         | H : forall l, ?v <> VList l |- _ => exfalso; eapply H; reflexivity
         | H : forall d, ?v <> VDict d |- _ => first [exfalso; eapply H; reflexivity | clear H]
         end;
  try congruence;
  unfold Py.get;
  repeat match goal with
         | |- _ /\ _ => split
         | |- forall _, _ => intro
         | H : Py.lookup _ _ = _ |- _ => rewrite H
         end;
  try reflexivity; try congruence.

(** C6, as the code has it.  [_get_api_response] never raises and never
    touches the conversation history.  A status other than 200, or a 200
    body that parses to anything but a non-empty list, gives the fixed
    clarification string.  A 200 body that is a non-empty list whose first
    element is an object gives that object's [generated_text], and the empty
    string when the object has no such field.  An exception of
    [requests.post], a 200 body that is not JSON, and a 200 list whose first
    element is not an object all raise inside the call: the error is logged
    and the fixed knowledge-base-unavailable string is returned. *)
Theorem get_api_response_outcomes (w : World) (user_input : string) (self : EllaBella) :
  exists r self',
    _get_api_response w user_input self = (Ok r, self')
    /\ conversation_history self' = conversation_history self
    /\ (forall e,
           requests_post w (api_request self user_input) = PostRaises e ->
           r = VStr unavailable /\ self' = api_error self e)
    /\ (forall status_code body,
           requests_post w (api_request self user_input) = Response status_code body ->
           status_code <> 200%Z ->
           r = VStr clarification /\ self' = self)
    /\ (forall e,
           requests_post w (api_request self user_input) = Response 200 (NotJson e) ->
           r = VStr unavailable /\ self' = api_error self e)
    /\ (forall response_data,
           requests_post w (api_request self user_input)
           = Response 200 (Json response_data) ->
           (response_data = VList [] \/ forall l, response_data <> VList l) ->
           r = VStr clarification /\ self' = self)
    /\ (forall d rest,
           requests_post w (api_request self user_input)
           = Response 200 (Json (VList (VDict d :: rest))) ->
           self' = self
           /\ (forall v, Py.lookup "generated_text" d = Some v -> r = v)
           /\ (Py.lookup "generated_text" d = None -> r = VStr ""))
    /\ (forall first rest,
           requests_post w (api_request self user_input)
           = Response 200 (Json (VList (first :: rest))) ->
           (forall d, first <> VDict d) ->
           r = VStr unavailable
           /\ self' = api_error self (Py.AttributeError first "get")).
Proof.
  unfold _get_api_response, try_except, bind, this.
  destruct (requests_post w (api_request self user_input)) as [e | status_code body].
  - exists (VStr unavailable), (api_error self e).
    split; [reflexivity |]. split; [reflexivity |].
    repeat apply conj; outcome_case.
  - destruct (Z.eqb_spec status_code 200) as [-> | Hne].
    + destruct body as [e | response_data].
      * exists (VStr unavailable), (api_error self e).
        split; [reflexivity |]. split; [reflexivity |].
        repeat apply conj; outcome_case.
      * destruct response_data as [| b | z | q | s | [|first rest] | d];
          try (exists (VStr clarification), self;
               (split; [reflexivity |]); (split; [reflexivity |]);
               repeat apply conj; outcome_case; fail).
        destruct first as [| b | z | q | s | l | d];
          match goal with
          | |- context [VList (VDict ?d :: rest)] =>
              exists (Py.get d "generated_text" (VStr "")), self
          | |- context [VList (?f :: rest)] =>
              exists (VStr unavailable), (api_error self (Py.AttributeError f "get"))
          end;
          (split; [reflexivity |]); (split; [reflexivity |]);
          repeat apply conj; outcome_case.
    + exists (VStr clarification), self.
      split; [reflexivity |]. split; [reflexivity |].
      repeat apply conj; outcome_case.
Qed.

Lemma get_api_response_outcomes_witness :
  fst (_get_api_response server_error "what now" (init "token"))
  = Ok (VStr clarification).
Proof.
  destruct (get_api_response_outcomes server_error "what now" (init "token"))
    as (r & self' & Hrun & _ & _ & Hstatus & _).
  rewrite Hrun. cbn [fst]. f_equal.
  apply (Hstatus 503%Z (Json VNone)); [reflexivity | discriminate].
Defined.

(** C6 as stated fails: a 200 answer [[{}]], a list whose first element has
    no [generated_text], makes the call return the empty string, which is
    neither a field of the answer nor one of the two fixed strings. *)
Lemma api_empty_object_returns_empty_string : ~ api_returns_field_or_fixed_string.
Proof.
  intros H.
  specialize (H empty_object_answer "what now" (init "token")).
  cbv zeta in H. cbn in H.
  destruct H as [(d & rest & v & [= <- _] & Hv & _) | [H | H]]; discriminate.
Qed.

(** ** Effects on the conversation history *)

Lemma keeps_ret {A : Type} (a : A) : keeps_history (ret a).
Proof. intros self. reflexivity. Qed.

Lemma keeps_raise {A : Type} (e : exn) : keeps_history (@raise A e).
Proof. intros self. reflexivity. Qed.

Lemma keeps_lift {A : Type} (r : result A) : keeps_history (lift r).
Proof. intros self. reflexivity. Qed.

Lemma keeps_this : keeps_history this.
Proof. intros self. reflexivity. Qed.

Lemma keeps_logging (lv : level) (msg : string) : keeps_history (logging lv msg).
Proof. intros self. reflexivity. Qed.

Lemma keeps_bind {A B : Type} (m : M A) (k : A -> M B) :
  keeps_history m -> (forall a, keeps_history (k a)) -> keeps_history (bind m k).
Proof.
  intros Hm Hk self. unfold bind. specialize (Hm self).
  destruct (m self) as [[a | e] self'] eqn:E; cbn [snd] in *.
  - now rewrite Hk.
  - exact Hm.
Qed.

Lemma keeps_try_except {A : Type} (body : M A) (handler : exn -> M A) :
  keeps_history body -> (forall e, keeps_history (handler e)) ->
  keeps_history (try_except body handler).
Proof.
  intros Hb Hh self. unfold try_except. specialize (Hb self).
  destruct (body self) as [[a | e] self'] eqn:E; cbn [snd] in *.
  - exact Hb.
  - now rewrite Hh.
Qed.

Create HintDb history discriminated.
#[local] Hint Resolve keeps_ret keeps_raise keeps_lift keeps_this keeps_logging : history.
#[local] Hint Extern 2 (keeps_history (bind _ _)) =>
  apply keeps_bind; [| intro] : history.
#[local] Hint Extern 2 (keeps_history (try_except _ _)) =>
  apply keeps_try_except; [| intro] : history.
#[local] Hint Extern 3 (keeps_history (match ?x with _ => _ end)) =>
  destruct x : history.
#[local] Hint Extern 3 (keeps_history (if ?b then _ else _)) =>
  destruct b : history.

Lemma get_api_response_keeps_history (w : World) (user_input : string) :
  keeps_history (_get_api_response w user_input).
Proof. unfold _get_api_response. auto 12 with history. Qed.

#[local] Hint Resolve get_api_response_keeps_history : history.

Lemma dispatch_keeps_history (w : World) (user_input : string) :
  keeps_history (dispatch w user_input).
Proof.
  unfold dispatch. destruct (_identify_intent user_input) as [intent confidence].
  auto 12 with history.
Qed.

Lemma turn_body_keeps_history (w : World) (user_input : string) :
  keeps_history (turn_body w user_input).
Proof.
  unfold turn_body. apply keeps_bind; [apply dispatch_keeps_history | intro; apply keeps_lift].
Qed.

(** One turn, run: the user's message is recorded, the body of the [try]
    runs, an exception is logged and replaced by the apology, and the
    response is recorded. *)
Lemma generate_response_run (w : World) (user_input : string) (self : EllaBella) :
  generate_response w user_input self
  = match turn_body w user_input (received w user_input self) with
    | (Ok r, s2) =>
        (Ok r, snd (add_message (now_replied w) r "EllaBella" s2))
    | (Raise e, s2) =>
        (Ok apology,
         snd (add_message (now_replied w) apology "EllaBella"
                (snd (logging ERROR ("Error generating response: " ++ str_exn e) s2))))
    end.
Proof.
  unfold generate_response, received, bind, try_except, ret, add_message, logging.
  cbn [fst snd].
  match goal with |- context [turn_body w user_input ?s] =>
    destruct (turn_body w user_input s) as [[r | e] s2] end; reflexivity.
Qed.

Lemma generate_response_history (w : World) (user_input : string) (self : EllaBella) :
  exists r self',
    generate_response w user_input self = (Ok r, self')
    /\ conversation_history self'
       = (conversation_history self ++ turn_entries w user_input r)%list.
Proof.
  rewrite generate_response_run.
  pose proof (turn_body_keeps_history w user_input (received w user_input self)) as Hk.
  destruct (turn_body w user_input (received w user_input self)) as [[r | e] s2];
    cbn [snd] in Hk; eexists; eexists; (split; [reflexivity |]);
    cbn; rewrite Hk; cbn; rewrite <- app_assoc; reflexivity.
Qed.

(** C9. A turn with input ["hi"] returns the fixed greeting, and every
    turn appends exactly two entries to the conversation history: the user's
    input with sender ["user"] and then the response with sender
    ["EllaBella"], each stamped with the clock reading of its recording. *)
Theorem turn_appends_user_then_bot (w : World) (user_input : string) (self : EllaBella) :
  (exists self',
      generate_response w "hi" self = (Ok greeting_reply, self')
      /\ conversation_history self'
         = (conversation_history self ++ turn_entries w "hi" greeting_reply)%list)
  /\ (exists r self',
         generate_response w user_input self = (Ok r, self')
         /\ conversation_history self'
            = (conversation_history self ++ turn_entries w user_input r)%list)
  /\ (forall r, List.length (turn_entries w user_input r) = 2
                /\ map sender (turn_entries w user_input r) = ["user"; "EllaBella"]
                /\ map content (turn_entries w user_input r) = [user_input; r]
                /\ map timestamp (turn_entries w user_input r)
                   = [now_received w; now_replied w]).
Proof.
  split; [| split].
  - eexists. split; [reflexivity |]. cbn. rewrite <- app_assoc. reflexivity.
  - apply generate_response_history.
  - intros r. repeat split.
Qed.

(** C7. A turn never raises.  When the classify, dispatch and format
    steps raise an exception the response is the fixed apology, whatever
    the exception, and the error is logged; in every case the response is
    appended to the conversation history after the user's input. *)
Theorem turn_exception_becomes_apology (w : World) (user_input : string) (self : EllaBella) :
  exists r self',
    generate_response w user_input self = (Ok r, self')
    /\ conversation_history self'
       = (conversation_history self ++ turn_entries w user_input r)%list
    /\ (forall e s2,
           turn_body w user_input (received w user_input self) = (Raise e, s2) ->
           r = apology
           /\ logfile self'
              = (logfile s2
                   ++ [ {| levelname := ERROR;
                           message := "Error generating response: " ++ str_exn e |};
                        {| levelname := INFO;
                           message := "New message from EllaBella: "
                                      ++ Py.take 50 apology ++ "..." |} ])%list)
    /\ (forall r0 s2,
           turn_body w user_input (received w user_input self) = (Ok r0, s2) ->
           r = r0).
Proof.
  destruct (generate_response_history w user_input self) as (r & self' & Hrun & Hhist).
  exists r, self'. split; [exact Hrun |]. split; [exact Hhist |].
  rewrite generate_response_run in Hrun. split.
  - intros e s2 Hbody. rewrite Hbody in Hrun. injection Hrun as <- <-.
    split; [reflexivity |]. cbn. rewrite <- app_assoc. reflexivity.
  - intros r0 s2 Hbody. rewrite Hbody in Hrun. now injection Hrun as <- _.
Qed.

Lemma turn_exception_becomes_apology_witness :
  fst (generate_response no_network "tell me about greeting" (init "token"))
  = Ok apology.
Proof.
  destruct (turn_exception_becomes_apology no_network "tell me about greeting"
              (init "token"))
    as (r & self' & Hrun & _ & Hraise & _).
  rewrite Hrun. cbn [fst]. f_equal.
  eapply Hraise. vm_compute. reflexivity.
Defined.

(** ** ConversationLog *)

Lemma last_n_length {A : Type} (n : nat) (l : list A) :
  List.length (Py.last_n n l) = Nat.min n (List.length l).
Proof. unfold Py.last_n. rewrite length_skipn. lia. Qed.

Lemma last_n_suffix {A : Type} (n : nat) (l : list A) :
  l = (firstn (List.length l - n) l ++ Py.last_n n l)%list.
Proof. unfold Py.last_n. now rewrite firstn_skipn. Qed.

Lemma session_history (turns : list (World * string)) (self : EllaBella) :
  exists added,
    conversation_history (session turns self)
    = (conversation_history self ++ added)%list
    /\ List.length added = 2 * List.length turns.
Proof.
  revert self; induction turns as [|[w user_input] rest IH]; intros self.
  - exists []. now rewrite app_nil_r.
  - cbn [session].
    destruct (generate_response_history w user_input self) as (r & self' & Hrun & Hhist).
    rewrite Hrun. cbn [snd].
    destruct (IH self') as (added & Hadded & Hlen).
    exists (turn_entries w user_input r ++ added)%list.
    rewrite Hadded, Hhist, <- app_assoc. split; [reflexivity |].
    rewrite length_app, Hlen. cbn [List.length turn_entries]. lia.
Qed.

Lemma last_n_recent {A : Type} (n : nat) (l older recent : list A) :
  l = (older ++ recent)%list ->
  List.length recent = Nat.min n (List.length l) ->
  Py.last_n n l = recent.
Proof.
  intros -> Hlen. unfold Py.last_n. rewrite length_app in *.
  destruct (Nat.le_gt_cases (List.length older + List.length recent) n) as [Hle | Hgt].
  - rewrite Nat.min_r in Hlen by exact Hle.
    assert (Holder : older = []) by (destruct older; [reflexivity | cbn in Hlen; lia]).
    subst older. cbn [app List.length].
    now replace (0 + List.length recent - n) with 0 by lia.
  - rewrite Nat.min_l in Hlen by lia.
    replace (List.length older + List.length recent - n) with (List.length older) by lia.
    rewrite skipn_app, skipn_all, Nat.sub_diag. reflexivity.
Qed.

(** C8. The conversation history is append-only: recording a message, the
    remote call, a whole turn and a whole session leave every earlier entry
    in place.  For every state [get_conversation_summary] returns at most 10
    entries; they are the most recent messages in their chronological order,
    each given as its content, the ISO form of its timestamp and its sender;
    and there are exactly 10 after five turns or more, so also after 50. *)
Theorem conversation_log_append_only (isoformat : datetime -> string) (self : EllaBella) :
  let entry := fun msg : Message =>
    [ ("content", VStr (content msg));
      ("timestamp", VStr (isoformat (timestamp msg)));
      ("sender", VStr (sender msg)) ] in
  (forall now text who, appends_only (add_message now text who))
  /\ (forall w user_input, keeps_history (_get_api_response w user_input))
  /\ (forall w user_input, appends_only (generate_response w user_input))
  /\ (forall turns, exists added,
         conversation_history (session turns self)
         = (conversation_history self ++ added)%list
         /\ List.length added = 2 * List.length turns)
  /\ List.length (get_conversation_summary isoformat self) <= 10
  /\ (exists older recent,
         conversation_history self = (older ++ recent)%list
         /\ List.length recent = Nat.min 10 (List.length (conversation_history self))
         /\ get_conversation_summary isoformat self = map entry recent)
  /\ (forall older recent,
         conversation_history self = (older ++ recent)%list ->
         List.length recent = Nat.min 10 (List.length (conversation_history self)) ->
         get_conversation_summary isoformat self = map entry recent)
  /\ (forall turns,
         5 <= List.length turns ->
         List.length (get_conversation_summary isoformat (session turns self)) = 10).
Proof.
  intros entry. repeat apply conj.
  - intros now text who s. eexists. reflexivity.
  - exact get_api_response_keeps_history.
  - intros w user_input s.
    destruct (generate_response_history w user_input s) as (r & s' & Hrun & Hhist).
    exists (turn_entries w user_input r). now rewrite Hrun.
  - intros turns. apply session_history.
  - unfold get_conversation_summary. rewrite length_map, last_n_length. lia.
  - exists (firstn (List.length (conversation_history self) - 10) (conversation_history self)),
           (Py.last_n 10 (conversation_history self)).
    split; [apply last_n_suffix | split; [apply last_n_length | reflexivity]].
  - intros older recent Hsplit Hlen. unfold get_conversation_summary.
    now rewrite (last_n_recent 10 _ older recent Hsplit Hlen).
  - intros turns Hturns. unfold get_conversation_summary.
    rewrite length_map, last_n_length.
    destruct (session_history turns self) as (added & -> & Hlen).
    rewrite length_app. lia.
Qed.

Lemma conversation_log_append_only_witness :
  map (Py.lookup "content")
      (get_conversation_summary (fun _ => "")
         (session [ (server_error, "thanks"); (server_error, "hi");
                    (server_error, "bye"); (server_error, "hey");
                    (server_error, "hello"); (server_error, "thank you") ]
            (init "token")))
  = [ Some (VStr "hi"); Some (VStr greeting_reply);
      Some (VStr "bye"); Some (VStr farewell_reply);
      Some (VStr "hey"); Some (VStr greeting_reply);
      Some (VStr "hello"); Some (VStr greeting_reply);
      Some (VStr "thank you"); Some (VStr gratitude_reply) ]
  /\ get_conversation_summary (fun t => if (t =? 0)%Z then "received" else "replied")
       (session [(server_error, "hi")] (init "token"))
     = [ [ ("content", VStr "hi"); ("timestamp", VStr "received");
           ("sender", VStr "user") ];
         [ ("content", VStr greeting_reply); ("timestamp", VStr "replied");
           ("sender", VStr "EllaBella") ] ]
  /\ List.length
       (get_conversation_summary (fun _ => "")
          (session (repeat (server_error, "hi") 50) (init "token"))) = 10.
Proof.
  split; [| split].
  - match goal with |- map _ (get_conversation_summary ?iso ?s) = _ =>
      destruct (conversation_log_append_only iso s)
        as (_ & _ & _ & _ & _ & _ & Hrecent & _);
      rewrite (Hrecent (firstn 2 (conversation_history s))
                 (skipn 2 (conversation_history s)))
    end; vm_compute; reflexivity.
  - match goal with |- get_conversation_summary ?iso ?s = _ =>
      destruct (conversation_log_append_only iso s)
        as (_ & _ & _ & _ & _ & _ & Hrecent & _);
      rewrite (Hrecent [] (conversation_history s))
    end; vm_compute; reflexivity.
  - apply (conversation_log_append_only (fun _ => "") (init "token")).
    rewrite repeat_length. lia.
Defined.

(** ** The greeting entry of the knowledge table *)

Lemma get_knowledge_greeting (topic : string) :
  Py.strip (Py.lower topic) = "greeting"
  \/ (~ In (Py.strip (Py.lower topic)) (map fst KnowledgeBase.knowledge)
      /\ ~ qualifies "usa" (Py.strip (Py.lower topic))
      /\ qualifies "greeting" (Py.strip (Py.lower topic))) ->
  KnowledgeBase.get_knowledge topic = VList KnowledgeBase.greeting.
Proof.
  unfold KnowledgeBase.get_knowledge.
  intros [-> | (Hkey & Husa & Hgreeting)]; [reflexivity |].
  destruct (Py.lookup (Py.strip (Py.lower topic)) KnowledgeBase.knowledge) as [v|] eqn:E.
  - exfalso. apply Hkey. apply lookup_some in E. now apply (in_map fst) in E.
  - unfold KnowledgeBase.knowledge. cbn [KnowledgeBase.partial_match].
    apply qualifies_spec in Hgreeting. rewrite Hgreeting.
    destruct (Py.contains "usa" (Py.strip (Py.lower topic))
              || Py.contains (Py.strip (Py.lower topic)) "usa") eqn:Eu; [| reflexivity].
    exfalso. apply Husa. now apply qualifies_spec.
Qed.

(** C10. The [greeting] key of the knowledge table holds a list of
    strings, not text.  Every topic that the lookup rules resolve to that
    key makes [get_knowledge] return the list, which is neither text nor
    [None] and on which the formatter raises; so the turn
    ["tell me about greeting"] ends in the fixed apology. *)
Theorem greeting_topic_returns_list (topic : string) :
  Py.strip (Py.lower topic) = "greeting"
  \/ (~ In (Py.strip (Py.lower topic)) (map fst KnowledgeBase.knowledge)
      /\ ~ qualifies "usa" (Py.strip (Py.lower topic))
      /\ qualifies "greeting" (Py.strip (Py.lower topic))) ->
  Py.lookup "greeting" KnowledgeBase.knowledge = Some (VList KnowledgeBase.greeting)
  /\ KnowledgeBase.get_knowledge topic = VList KnowledgeBase.greeting
  /\ (forall s, KnowledgeBase.get_knowledge topic <> VStr s)
  /\ KnowledgeBase.get_knowledge topic <> VNone
  /\ _format_response (KnowledgeBase.get_knowledge topic)
     = Raise (Py.AttributeError (VList KnowledgeBase.greeting) "replace")
  /\ (forall w self,
         fst (dispatch w "tell me about greeting" (received w "tell me about greeting" self))
         = Ok (VList KnowledgeBase.greeting)
         /\ fst (turn_body w "tell me about greeting"
                   (received w "tell me about greeting" self))
            = Raise (Py.AttributeError (VList KnowledgeBase.greeting) "replace")
         /\ fst (generate_response w "tell me about greeting" self) = Ok apology).
Proof.
  intros H. rewrite (get_knowledge_greeting topic H).
  split; [reflexivity |]. split; [reflexivity |].
  split; [discriminate |]. split; [discriminate |]. split; [reflexivity |].
  intros w self. repeat split.
Qed.

Lemma greeting_topic_returns_list_witness :
  KnowledgeBase.get_knowledge " Greet" = VList KnowledgeBase.greeting.
Proof.
  apply (greeting_topic_returns_list " Greet").
  right. split; [| split].
  - vm_compute. intros H.
    repeat (destruct H as [H | H]; [discriminate H |]). exact H.
  - intros H. apply qualifies_spec in H. vm_compute in H. discriminate H.
  - apply qualifies_spec. vm_compute. reflexivity.
Defined.

(** ** Orchestrator: the topic after "tell me about" *)

Lemma last_item_snoc (init : list string) (x : string) :
  Py.last_item (init ++ [x]) = Ok x.
Proof.
  induction init as [|p init IH]; [reflexivity |].
  cbn [app Py.last_item]. destruct (init ++ [x])%list eqn:E; [| exact IH].
  now destruct init.
Qed.

Lemma join_snoc (sep : string) (init : list string) (x : string) :
  init <> [] -> Py.join sep (init ++ [x]) = Py.join sep init ++ sep ++ x.
Proof.
  induction init as [|p init IH]; [congruence |]. intros _.
  destruct init as [|q init]; [reflexivity |].
  change ((p :: q :: init) ++ [x])%list with (p :: ((q :: init) ++ [x]))%list.
  rewrite join_cons by discriminate. rewrite IH by discriminate.
  rewrite (join_cons sep p (q :: init)) by discriminate.
  now rewrite !append_assoc.
Qed.

(** The last piece of a split holds no occurrence of the separator. *)
Lemma split_from_last (sep : string) (skip : nat) (s : string) :
  sep <> "" ->
  exists init after,
    Py.split_from sep skip s = (init ++ [after])%list
    /\ Py.contains sep after = false.
Proof.
  intros Hsep. revert skip; induction s as [|c s IH]; intros skip.
  - exists [], "". split; [now destruct skip |].
    destruct sep; [congruence | reflexivity].
  - cbn [Py.split_from]. destruct skip as [|k]; [| apply IH].
    destruct (Py.startswith sep (String c s)) eqn:E.
    + destruct (IH (String.length sep - 1)) as (init & after & -> & Hafter).
      now exists ("" :: init), after.
    + pose proof (join_split_from sep 0 s Hsep) as Hjoin.
      destruct (IH 0) as (init & after & Hsplit & Hafter).
      rewrite Hsplit in *. destruct init as [|p init].
      * exists [], (String c after). split; [reflexivity |].
        cbn in Hjoin. subst after. rewrite contains_unfold, E, Hafter. reflexivity.
      * now exists (String c p :: init), after.
Qed.

(** When the separator occurs, the text is what precedes the last piece,
    the separator, and the last piece. *)
Lemma split_last_piece (sep s : string) :
  sep <> "" ->
  Py.contains sep s = true ->
  exists before after,
    Py.split sep s = Ok (before ++ [after])%list
    /\ before <> []
    /\ s = Py.join sep before ++ sep ++ after
    /\ ~ occurs sep after.
Proof.
  intros Hsep Hocc.
  destruct (split_from_last sep 0 s Hsep) as (before & after & Hsplit & Hafter).
  pose proof (join_split_from sep 0 s Hsep) as Hjoin. rewrite Hsplit in Hjoin.
  cbn [Py.drop] in Hjoin.
  assert (Hne : before <> []).
  { intros ->. cbn in Hjoin. subst after. congruence. }
  exists before, after. repeat split.
  - unfold Py.split. destruct sep; [congruence | now rewrite Hsplit].
  - exact Hne.
  - now rewrite <- Hjoin, join_snoc.
  - now apply contains_false.
Qed.

Lemma knowledge_values_truthy (key : string) (v : value) :
  In (key, v) KnowledgeBase.knowledge -> Py.truthy v = true.
Proof.
  unfold KnowledgeBase.knowledge. simpl.
  intros [[= <- <-] | [[= <- <-] | [[= <- <-] | []]]]; reflexivity.
Qed.

Lemma get_knowledge_truthy (topic : string) :
  KnowledgeBase.get_knowledge topic <> VNone ->
  Py.truthy (KnowledgeBase.get_knowledge topic) = true.
Proof.
  unfold KnowledgeBase.get_knowledge.
  destruct (Py.lookup (Py.strip (Py.lower topic)) KnowledgeBase.knowledge) as [v|] eqn:E.
  - intros _. apply lookup_some in E. exact (knowledge_values_truthy _ _ E).
  - destruct (partial_match_cases (Py.strip (Py.lower topic)) KnowledgeBase.knowledge)
      as [(earlier & key & v & later & Htab & _ & _ & ->) | [_ ->]]; [| congruence].
    intros _. apply (knowledge_values_truthy key).
    rewrite Htab. apply in_or_app. right. now left.
Qed.

(** C4, as the code has it.  When the classified intent is none of
    greeting, about_bot, farewell, gratitude: if the lowercased input does
    not contain ["tell me about"] the response is the remote completion of
    the raw input; if it does, the input is split at the occurrences of the
    phrase found from left to right without overlap, the topic is the
    trimmed last piece, which follows an occurrence of the phrase and holds
    no further one, and the response is the knowledge found for that topic,
    or the remote completion of the raw input when there is none. *)
Theorem dispatch_tell_me_about (w : World) (user_input : string) (self : EllaBella) :
  not_canned (fst (_identify_intent user_input)) ->
  (Py.contains "tell me about" (Py.lower user_input) = false ->
   dispatch w user_input self = _get_api_response w user_input self)
  /\ (Py.contains "tell me about" (Py.lower user_input) = true ->
      exists before after,
        Py.split "tell me about" (Py.lower user_input) = Ok (before ++ [after])%list
        /\ before <> []
        /\ Py.lower user_input
           = Py.join "tell me about" before ++ "tell me about" ++ after
        /\ ~ occurs "tell me about" after
        /\ let knowledge := KnowledgeBase.get_knowledge (Py.strip after) in
           (knowledge <> VNone -> dispatch w user_input self = (Ok knowledge, self))
           /\ (knowledge = VNone ->
               dispatch w user_input self = _get_api_response w user_input self)).
Proof.
  unfold not_canned, dispatch.
  destruct (_identify_intent user_input) as [intent confidence]. cbn [fst].
  intros (H1 & H2 & H3 & H4).
  apply String.eqb_neq in H1, H2, H3, H4. rewrite H1, H2, H3, H4.
  split; intros Hocc; rewrite Hocc; [reflexivity |].
  destruct (split_last_piece "tell me about" (Py.lower user_input)) as
    (before & after & Hsplit & Hne & Hjoin & Hafter); [discriminate | exact Hocc |].
  exists before, after. repeat (split; [assumption |]).
  unfold bind, lift. rewrite Hsplit, last_item_snoc. cbv zeta.
  split; intros Hk.
  - now rewrite (get_knowledge_truthy _ Hk).
  - now rewrite Hk.
Qed.

Lemma dispatch_tell_me_about_witness :
  dispatch server_error "Tell me about the USA" (init "token")
  = (Ok (VStr KnowledgeBase.usa), init "token")
  /\ dispatch server_error "explain monads" (init "token")
     = _get_api_response server_error "explain monads" (init "token").
Proof.
  split.
  - destruct (dispatch_tell_me_about server_error "Tell me about the USA" (init "token"))
      as [_ Hpresent]; [vm_compute; repeat split; discriminate |].
    destruct Hpresent as (before & after & Hsplit & _ & _ & _ & Hfound & _);
      [vm_compute; reflexivity |].
    vm_compute in Hsplit. injection Hsplit as Hsplit.
    change [""; " the usa"] with ([""] ++ [" the usa"])%list in Hsplit.
    apply app_inj_tail in Hsplit as [_ <-].
    apply Hfound. vm_compute. discriminate.
  - apply (dispatch_tell_me_about server_error "explain monads" (init "token"));
      [vm_compute; repeat split; discriminate | vm_compute; reflexivity].
Defined.

(** C4 as stated fails when occurrences of the phrase overlap: in
    ["tell me aboutell me about"] the last occurrence starts at the final
    [t] of the first and nothing follows it, so the topic of the claim is
    empty and is found in the table, while the split leaves the topic
    ["ell me about"], which is not, and the turn goes to the remote call. *)
Lemma overlapping_phrase_topic : ~ topic_follows_last_occurrence.
Proof.
  intros H.
  specialize (H server_error "tell me aboutell me about" (init "token")
                "tell me abou" "").
  destruct H as [Hfound _].
  - vm_compute. repeat split; discriminate.
  - split; [reflexivity |].
    intros pre' post' Heq. apply (f_equal String.length) in Heq.
    rewrite !length_append in Heq. cbn in Heq. cbn. lia.
  - assert (Hk : KnowledgeBase.get_knowledge (Py.strip "") <> VNone)
      by (vm_compute; discriminate).
    specialize (Hfound Hk). vm_compute in Hfound. discriminate Hfound.
Qed.

(** ** Start-up *)

(** X1. [_load_preferences] returns exactly when the preferences file
    opens and parses, and then returns what was parsed.  Because the class
    has no [_save_default_preferences], a missing file and a file that is
    not JSON both end in an [AttributeError]: the default preferences are
    never returned as a fallback. *)
Theorem load_preferences_no_fallback (file : OpenFile) :
  (forall preferences,
      _load_preferences file = Ok preferences <-> file = Opened (Loaded preferences))
  /\ (forall e,
         file = OpenRaises e -> class_name e = "FileNotFoundError" ->
         _load_preferences file = Raise no_save_method)
  /\ (forall e,
         file = Opened (LoadRaises e) -> class_name e = "JSONDecodeError" ->
         _load_preferences file = Raise no_save_method)
  /\ (forall e,
         (file = OpenRaises e \/ file = Opened (LoadRaises e)) ->
         class_name e <> "FileNotFoundError" -> class_name e <> "JSONDecodeError" ->
         _load_preferences file = Raise e).
Proof.
  unfold _load_preferences, except_class, _save_default_preferences, no_save_method.
  repeat apply conj.
  - intros preferences. split.
    + destruct file as [e | [e | data]].
      * destruct (class_name e =? "FileNotFoundError"); discriminate.
      * destruct (class_name e =? "JSONDecodeError"); cbn;
          [discriminate | destruct (class_name e =? "FileNotFoundError"); discriminate].
      * now intros [= ->].
    + now intros ->.
  - intros e -> He. now rewrite He.
  - intros e -> He. now rewrite He.
  - intros e [-> | ->] Hf Hj;
      apply String.eqb_neq in Hf; apply String.eqb_neq in Hj; now rewrite ?Hj, ?Hf.
Qed.

Lemma load_preferences_no_fallback_witness :
  _load_preferences (preferences_file fresh_checkout) = Raise no_save_method.
Proof.
  destruct (load_preferences_no_fallback (preferences_file fresh_checkout))
    as (_ & Hmissing & _).
  apply (Hmissing (Exn "FileNotFoundError" "No such file or directory")); reflexivity.
Defined.

Lemma load_preferences_ok (file : OpenFile) (preferences : value) :
  _load_preferences file = Ok preferences -> file = Opened (Loaded preferences).
Proof.
  unfold _load_preferences, except_class, _save_default_preferences.
  destruct file as [e | [e | data]].
  - destruct (class_name e =? "FileNotFoundError"); discriminate.
  - destruct (class_name e =? "JSONDecodeError"); cbn;
      [discriminate | destruct (class_name e =? "FileNotFoundError"); discriminate].
  - now intros [= ->].
Qed.

(** X2. Construction succeeds exactly when the preferences file opens and
    parses, whatever the sentiment pipeline does.  The new chatbot has an
    empty history and the bearer header of its token; it has an analyzer
    exactly when the pipeline loaded, and a pipeline that failed to load
    leaves one error line in the log. *)
Theorem init_needs_preferences_file (st : Startup) (token : string) :
  ((exists chatbot, __init__ st token = Ok chatbot)
   <-> exists preferences, preferences_file st = Opened (Loaded preferences))
  /\ (forall chatbot,
         __init__ st token = Ok chatbot ->
         preferences_file st = Opened (Loaded (user_preferences chatbot))
         /\ conversation_history (core chatbot) = []
         /\ api_token (core chatbot) = token
         /\ headers (core chatbot) = [("Authorization", "Bearer " ++ token)]
         /\ (forall analyzer,
                pipeline st = Ok analyzer ->
                sentiment_analyzer chatbot = Some analyzer
                /\ logfile (core chatbot) = [])
         /\ (forall e,
                pipeline st = Raise e ->
                sentiment_analyzer chatbot = None
                /\ logfile (core chatbot)
                   = [ {| levelname := ERROR;
                          message := "Error loading sentiment model: " ++ str_exn e |} ])).
Proof.
  unfold __init__. split.
  - split.
    + intros [chatbot H].
      destruct (_load_preferences (preferences_file st)) as [preferences | e] eqn:E;
        [| discriminate].
      exists preferences. now apply load_preferences_ok.
    + intros [preferences H]. rewrite H. cbn.
      destruct (pipeline st); eexists; reflexivity.
  - intros chatbot H.
    destruct (_load_preferences (preferences_file st)) as [preferences | e] eqn:E;
      [| discriminate].
    apply load_preferences_ok in E.
    destruct (pipeline st) as [analyzer | e]; injection H as <-; cbn;
      (split; [exact E |]); repeat (split; [reflexivity |]);
      split; intros ? [= <-]; split; reflexivity.
Qed.

Lemma init_needs_preferences_file_witness :
  exists chatbot,
    __init__ no_model "token" = Ok chatbot
    /\ sentiment_analyzer chatbot = None
    /\ conversation_history (core chatbot) = [].
Proof.
  destruct (init_needs_preferences_file no_model "token") as [[_ Hstart] Hshape].
  destruct Hstart as [chatbot Hchatbot]; [now eexists |].
  exists chatbot. split; [exact Hchatbot |].
  destruct (Hshape chatbot Hchatbot) as (_ & Hhist & _ & _ & _ & Hnone).
  split; [| exact Hhist].
  apply (Hnone (Exn "OSError" "model not found")). reflexivity.
Defined.

(** ** SentimentAnnotator *)

(** X3. [analyze_sentiment] never raises and never touches the
    conversation history.  Without an analyzer it returns [None] and logs
    nothing; when the analyzer answers with a non-empty list it returns the
    first element and logs nothing; when the analyzer raises, or answers
    with something that has no first element, it logs the error and returns
    [None]. *)
Theorem analyze_sentiment_never_raises (analyzer : option Analyzer) (text : string)
  (self : EllaBella) :
  exists r self',
    analyze_sentiment analyzer text self = (Ok r, self')
    /\ conversation_history self' = conversation_history self
    /\ (analyzer = None -> r = VNone /\ self' = self)
    /\ (forall call first rest,
           analyzer = Some call -> call text = Ok (VList (first :: rest)) ->
           r = first /\ self' = self)
    /\ (forall call e,
           analyzer = Some call -> call text = Raise e ->
           r = VNone /\ self' = sentiment_error self e)
    /\ (forall call answer e,
           analyzer = Some call -> call text = Ok answer -> subscript0 answer = Raise e ->
           r = VNone /\ self' = sentiment_error self e).
Proof.
  unfold analyze_sentiment. destruct analyzer as [call |].
  - unfold try_except, bind, lift.
    destruct (call text) as [answer | e] eqn:Ecall.
    + destruct (subscript0 answer) as [first | e] eqn:Efirst.
      * exists first, self. split; [reflexivity |]. split; [reflexivity |].
        repeat apply conj; try discriminate.
        -- intros c f rest [= <-] Hc. rewrite Ecall in Hc. injection Hc as ->.
           cbn in Efirst. now injection Efirst as ->.
        -- intros c e [= <-] Hc. congruence.
        -- intros c a e [= <-] Hc Ha. congruence.
      * exists VNone, (sentiment_error self e).
        split; [reflexivity |]. split; [reflexivity |].
        repeat apply conj; try discriminate.
        -- intros c f rest [= <-] Hc. rewrite Ecall in Hc. injection Hc as ->.
           discriminate Efirst.
        -- intros c e' [= <-] Hc. congruence.
        -- intros c a e' [= <-] Hc Ha. rewrite Ecall in Hc. injection Hc as <-.
           rewrite Efirst in Ha. now injection Ha as <-.
    + exists VNone, (sentiment_error self e).
      split; [reflexivity |]. split; [reflexivity |].
      repeat apply conj; try discriminate.
      * intros c f rest [= <-] Hc. congruence.
      * intros c e' [= <-] Hc. rewrite Ecall in Hc. now injection Hc as <-.
      * intros c a e' [= <-] Hc. congruence.
  - exists VNone, self. split; [reflexivity |]. split; [reflexivity |].
    repeat apply conj; try discriminate. now intros _.
Qed.

Lemma analyze_sentiment_never_raises_witness :
  fst (analyze_sentiment (Some positive) "great" (init "token"))
  = Ok (VDict [("label", VStr "POSITIVE"); ("score", VFloat 0.99%Q)])
  /\ fst (analyze_sentiment None "great" (init "token")) = Ok VNone.
Proof.
  split.
  - destruct (analyze_sentiment_never_raises (Some positive) "great" (init "token"))
      as (r & self' & Hrun & _ & _ & Hfirst & _).
    rewrite Hrun. cbn [fst]. f_equal.
    apply (Hfirst positive _ []); reflexivity.
  - destruct (analyze_sentiment_never_raises None "great" (init "token"))
      as (r & self' & Hrun & _ & Hnone & _).
    rewrite Hrun. cbn [fst]. f_equal. now apply Hnone.
Defined.

(** ** Shape of a formatted response *)

Lemma contains_nl_append (a b : string) :
  Py.contains Py.nl (a ++ b) = Py.contains Py.nl a || Py.contains Py.nl b.
Proof.
  induction a as [|c a IH]; [reflexivity |].
  cbn [append]. rewrite (contains_unfold Py.nl (String c (a ++ b))),
    (contains_unfold Py.nl (String c a)), IH.
  unfold Py.nl. cbn [Py.startswith]. now rewrite !andb_true_r, orb_assoc.
Qed.

Lemma take_drop (n : nat) (s : string) : s = Py.take n s ++ Py.drop n s.
Proof.
  revert s; induction n as [|n IH]; intros [|c s]; cbn; try reflexivity.
  now rewrite <- IH.
Qed.

Lemma no_nl_take (n : nat) (s : string) :
  Py.contains Py.nl s = false -> Py.contains Py.nl (Py.take n s) = false.
Proof.
  intros H. rewrite (take_drop n s), contains_nl_append in H.
  now apply orb_false_iff in H as [H _].
Qed.

Lemma no_nl_strip (s : string) :
  Py.contains Py.nl s = false -> Py.contains Py.nl (Py.strip s) = false.
Proof.
  intros H. destruct (strip_spec s) as (l & r & Hs & _).
  rewrite Hs, !contains_nl_append in H.
  apply orb_false_iff in H as [_ H]. now apply orb_false_iff in H as [H _].
Qed.

Lemma no_nl_join (pieces : list string) :
  Forall (fun p => Py.contains Py.nl p = false) pieces ->
  Py.contains Py.nl (Py.join " " pieces) = false.
Proof.
  induction pieces as [|p ps IH]; intros H; [reflexivity |].
  inversion H as [|? ? Hp Hps]; subst.
  destruct ps as [|q ps]; [exact Hp |].
  rewrite join_cons by discriminate.
  now rewrite !contains_nl_append, Hp, (IH Hps).
Qed.

Lemma ends_with_space_append (a b : string) :
  b <> "" -> ends_with_space (a ++ b) = ends_with_space b.
Proof.
  intros Hb. induction a as [|c a IH]; [reflexivity |].
  cbn [append ends_with_space]. destruct (a ++ b) eqn:E; [| exact IH].
  destruct a; [cbn in E; congruence | discriminate E].
Qed.

Lemma starts_with_space_append (a b : string) :
  a <> "" -> starts_with_space (a ++ b) = starts_with_space a.
Proof. destruct a; [congruence | reflexivity]. Qed.

Lemma solid_join (pieces : list string) :
  Forall solid pieces -> pieces <> [] -> solid (Py.join " " pieces).
Proof.
  induction pieces as [|p ps IH]; intros H Hne; [congruence |].
  inversion H as [|? ? (Hp & Hstart & Hend) Hps]; subst.
  destruct ps as [|q ps]; [now repeat split |].
  rewrite join_cons by discriminate.
  destruct (IH Hps) as (Hj & _ & Hjend); [discriminate |].
  repeat split.
  - destruct p; [congruence | discriminate].
  - now rewrite starts_with_space_append.
  - rewrite ends_with_space_append by discriminate.
    change (" " ++ Py.join " " (q :: ps)) with (String " " (Py.join " " (q :: ps))).
    cbn [ends_with_space]. destruct (Py.join " " (q :: ps)); [congruence | exact Hjend].
Qed.

Lemma solid_lines (lines : list string) :
  Forall solid
    (map Py.strip (filter (fun line => negb (String.eqb (Py.strip line) "")) lines)).
Proof.
  induction lines as [|line lines IH]; [constructor |].
  cbn [filter]. destruct (String.eqb_spec (Py.strip line) "") as [E | E]; [exact IH |].
  cbn [negb map]. constructor; [| exact IH].
  destruct (strip_spec line) as (l & r & _ & _ & _ & Hstart & Hend).
  now repeat split.
Qed.

Lemma no_nl_lines (lines : list string) :
  Forall (fun p => Py.contains Py.nl p = false) lines ->
  Forall (fun p => Py.contains Py.nl p = false)
    (map Py.strip (filter (fun line => negb (String.eqb (Py.strip line) "")) lines)).
Proof.
  induction lines as [|line lines IH]; intros H; [constructor |].
  inversion H as [|? ? Hline Hlines]; subst.
  cbn [filter]. destruct (negb (Py.strip line =? "")); [| now apply IH].
  cbn [map]. constructor; [now apply no_nl_strip | now apply IH].
Qed.

Lemma Ok_inj {A : Type} (a b : A) : Ok a = Ok b -> a = b.
Proof. now intros [= ->]. Qed.

Lemma format_response_shape (text : value) (r : string) :
  _format_response text = Ok r ->
  String.length r <= 500
  /\ Py.contains Py.nl r = false
  /\ starts_with_space r = false
  /\ ends_with_space r = false.
Proof.
  destruct (Py.truthy text) eqn:Etruthy.
  2: { unfold _format_response. rewrite Etruthy. cbn [negb].
       intros [= <-]. cbn. repeat split; lia. }
  destruct text as [| b | z | q | s | l | d];
    try (unfold _format_response; rewrite Etruthy; discriminate).
  assert (Hs : s <> "") by (intros ->; discriminate Etruthy).
  destruct (format_response_str s Hs) as (lines & Hlines & ->).
  assert (Hnl : Forall (fun p => Py.contains Py.nl p = false) lines).
  { unfold Py.split, Py.nl in Hlines. injection Hlines as <-. apply split_lines_no_nl. }
  apply no_nl_lines, no_nl_join in Hnl.
  pose proof (solid_lines lines) as Hsolid. cbv zeta. revert Hnl Hsolid.
  generalize (map Py.strip
                (filter (fun line => negb (String.eqb (Py.strip line) "")) lines)).
  intros pieces Hnl Hsolid.
  destruct (Nat.ltb_spec 500 (String.length (Py.join " " pieces))) as [Hlong | Hshort];
    intros H.
  - change (Ok (Py.take 497 (Py.join " " pieces) ++ "...") = Ok r) in H.
    apply Ok_inj in H. subst r.
    destruct pieces as [|p ps]; [cbn in Hlong; lia |].
    destruct (solid_join (p :: ps) Hsolid) as (_ & Hstart & _); [discriminate |].
    split; [rewrite length_append, length_take, Nat.min_l by lia; cbn; lia |].
    split; [| split].
    + rewrite contains_nl_append, no_nl_take by exact Hnl. reflexivity.
    + destruct (Py.join " " (p :: ps)); [cbn in Hlong; lia | exact Hstart].
    + now rewrite ends_with_space_append.
  - change (Ok (Py.join " " pieces) = Ok r) in H. apply Ok_inj in H. subst r.
    split; [exact Hshort |]. split; [exact Hnl |].
    destruct pieces as [|p ps]; [now split |].
    now destruct (solid_join (p :: ps) Hsolid) as (_ & Hstart & Hend).
Qed.

(** X4. Whatever it is given, when [_format_response] returns it returns
    a single line of at most 500 characters with no whitespace at either
    end. *)
Theorem format_response_single_line (text : value) (r : string) :
  _format_response text = Ok r ->
  String.length r <= 500
  /\ Py.contains Py.nl r = false
  /\ starts_with_space r = false
  /\ ends_with_space r = false.
Proof.
  intros H.
  destruct (format_response_shape text r H) as (Hlen & Hline & Hstart & Hend).
  split; [exact Hlen |]. split; [exact Hline |]. split; [exact Hstart | exact Hend].
Qed.

Lemma format_response_single_line_witness :
  String.length "a b" <= 500
  /\ Py.contains Py.nl "a b" = false
  /\ starts_with_space "a b" = false
  /\ ends_with_space "a b" = false.
Proof.
  apply (format_response_single_line (VStr ("  Assistant: a" ++ Py.nl ++ " b  "))).
  reflexivity.
Defined.

Lemma startswith_after_space (p : string) (c : ascii) (s : string) :
  p <> "" -> starts_with_space p = false -> Py.isspace c = true ->
  Py.startswith p (String c s) = false.
Proof.
  destruct p as [|a p]; [congruence |]. cbn. intros _ Ha Hc.
  destruct (Ascii.eqb_spec a c) as [-> | _]; [congruence | reflexivity].
Qed.

Lemma contains_in_spaces (p s : string) :
  p <> "" -> starts_with_space p = false -> all_space s = true ->
  Py.contains p s = false.
Proof.
  intros Hp Hstart. induction s as [|c s IH]; intros Hs.
  - destruct p; [congruence | reflexivity].
  - cbn in Hs. apply andb_true_iff in Hs as [Hc Hs].
    now rewrite contains_unfold, startswith_after_space, IH.
Qed.

Lemma lstrip_all_space (s : string) : all_space s = true -> Py.lstrip s = "".
Proof.
  induction s as [|c s IH]; [reflexivity |]. cbn. intros H.
  apply andb_true_iff in H as [Hc Hs]. now rewrite Hc, IH.
Qed.

Lemma strip_all_space (s : string) : all_space s = true -> Py.strip s = "".
Proof. intros H. unfold Py.strip. now rewrite lstrip_all_space. Qed.

(** X5. A text that is not empty but holds only whitespace is not
    answered with the apology of the empty text: it is formatted to the
    empty string. *)
Theorem format_response_blank (s : string) :
  s <> "" -> all_space s = true -> _format_response (VStr s) = Ok "".
Proof.
  intros Hs Hspace.
  destruct (format_response_str s Hs) as (lines & Hlines & ->).
  rewrite (replace_absent "EllaBella:" "" s) in Hlines
    by (try discriminate; now apply contains_in_spaces).
  rewrite (replace_absent "Assistant:" "" s) in Hlines
    by (try discriminate; now apply contains_in_spaces).
  rewrite (strip_all_space s Hspace) in Hlines. now injection Hlines as <-.
Qed.

Lemma format_response_blank_witness :
  _format_response (VStr ("  " ++ Py.nl ++ " ")) = Ok "".
Proof.
  apply format_response_blank; [discriminate | reflexivity].
Defined.

Lemma turn_body_formats (w : World) (user_input : string) (self s2 : EllaBella)
  (r : string) :
  turn_body w user_input self = (Ok r, s2) ->
  exists v, _format_response v = Ok r.
Proof.
  unfold turn_body, bind, lift.
  destruct (dispatch w user_input self) as [[v | e] s1]; [| discriminate].
  intros [= H _]. now exists v.
Qed.

(** X6. Every response of a turn is a single line of at most 500
    characters with no whitespace at either end, whatever the input, the
    state and the answer of the network. *)
Theorem generate_response_single_line (w : World) (user_input : string)
  (self : EllaBella) :
  exists r self',
    generate_response w user_input self = (Ok r, self')
    /\ String.length r <= 500
    /\ Py.contains Py.nl r = false
    /\ starts_with_space r = false
    /\ ends_with_space r = false.
Proof.
  rewrite generate_response_run.
  destruct (turn_body w user_input (received w user_input self)) as [[r | e] s2] eqn:E.
  - eexists. eexists. split; [reflexivity |].
    destruct (turn_body_formats _ _ _ _ _ E) as [v Hv].
    exact (format_response_shape v r Hv).
  - eexists. eexists. split; [reflexivity |]. cbn. repeat split; lia.
Qed.

(** ** Canned intents *)

(** X7. When the classified intent is greeting, about_bot, farewell or
    gratitude the turn returns the fixed reply of that intent, and the
    state afterwards holds the two messages and their two log lines and
    nothing else: the network is not consulted and nothing is logged as an
    error. *)
Theorem canned_intents_fixed_reply (w : World) (user_input reply : string)
  (self : EllaBella) :
  canned_reply (fst (_identify_intent user_input)) = Some reply ->
  generate_response w user_input self
  = (Ok reply, answered w user_input reply self).
Proof.
  rewrite generate_response_run. unfold answered, turn_body, dispatch, canned_reply, bind.
  destruct (_identify_intent user_input) as [intent confidence]. cbn [fst].
  destruct (intent =? "greeting"); [now intros [= <-] |].
  destruct (intent =? "about_bot"); [now intros [= <-] |].
  destruct (intent =? "farewell"); [now intros [= <-] |].
  destruct (intent =? "gratitude"); [now intros [= <-] | discriminate].
Qed.

Lemma canned_intents_fixed_reply_witness :
  generate_response no_network "Who are you?" (init "token")
  = (Ok about_me_reply, answered no_network "Who are you?" about_me_reply (init "token")).
Proof.
  apply canned_intents_fixed_reply. reflexivity.
Defined.

(** ** Case and surrounding whitespace *)

Lemma lower_char_idempotent (c : ascii) :
  Py.lower_char (Py.lower_char c) = Py.lower_char c.
Proof. destruct c as [[] [] [] [] [] [] [] []]; reflexivity. Qed.

Lemma isspace_lower_char (c : ascii) : Py.isspace (Py.lower_char c) = Py.isspace c.
Proof. destruct c as [[] [] [] [] [] [] [] []]; reflexivity. Qed.

Lemma lower_idempotent (s : string) : Py.lower (Py.lower s) = Py.lower s.
Proof.
  induction s as [|c s IH]; [reflexivity |].
  cbn. now rewrite lower_char_idempotent, IH.
Qed.

Lemma all_space_lower (s : string) : all_space (Py.lower s) = all_space s.
Proof.
  induction s as [|c s IH]; [reflexivity |].
  cbn. now rewrite isspace_lower_char, IH.
Qed.

Lemma lstrip_lower (s : string) : Py.lstrip (Py.lower s) = Py.lower (Py.lstrip s).
Proof.
  induction s as [|c s IH]; [reflexivity |].
  cbn. rewrite isspace_lower_char. now destruct (Py.isspace c).
Qed.

Lemma rstrip_lower (s : string) : Py.rstrip (Py.lower s) = Py.lower (Py.rstrip s).
Proof.
  induction s as [|c s IH]; [reflexivity |].
  cbn [Py.lower Py.rstrip]. rewrite IH, isspace_lower_char.
  destruct (Py.rstrip s); cbn; [now destruct (Py.isspace c) | reflexivity].
Qed.

Lemma strip_lower (s : string) : Py.strip (Py.lower s) = Py.lower (Py.strip s).
Proof. unfold Py.strip. now rewrite lstrip_lower, rstrip_lower. Qed.

Lemma lstrip_solid (s : string) : starts_with_space s = false -> Py.lstrip s = s.
Proof. destruct s as [|c s]; [reflexivity |]. cbn. now intros ->. Qed.

Lemma rstrip_solid (s : string) : ends_with_space s = false -> Py.rstrip s = s.
Proof.
  induction s as [|c s IH]; [reflexivity |].
  cbn [ends_with_space Py.rstrip]. destruct s as [|d s].
  - cbn. now intros ->.
  - intros H. now rewrite (IH H).
Qed.

Lemma strip_idempotent (s : string) : Py.strip (Py.strip s) = Py.strip s.
Proof.
  destruct (strip_spec s) as (l & r & _ & _ & _ & Hstart & Hend).
  unfold Py.strip at 1. now rewrite (lstrip_solid _ Hstart), (rstrip_solid _ Hend).
Qed.

Lemma solidb_solid (s : string) : solidb s = true -> solid s.
Proof.
  unfold solidb, solid. rewrite !andb_true_iff, !negb_true_iff.
  intros [[H1 H2] H3]. now apply String.eqb_neq in H1.
Qed.

Lemma startswith_padded_right (p x r : string) :
  p <> "" -> ends_with_space p = false -> all_space r = true ->
  Py.startswith p (x ++ r) = Py.startswith p x.
Proof.
  intros Hp Hend Hr. revert x r Hr Hp Hend.
  induction p as [|a p IH]; intros x r Hr Hp Hend; [congruence |].
  destruct x as [|b x].
  - destruct r as [|c r]; [reflexivity |].
    cbn in Hr. apply andb_true_iff in Hr as [Hc Hr].
    cbn [append Py.startswith]. destruct p as [|a' p].
    + cbn in Hend. destruct (Ascii.eqb_spec a c) as [-> | _]; [congruence | reflexivity].
    + assert (Htail : Py.startswith (String a' p) ("" ++ r) = false)
        by (rewrite (IH "" r Hr); [reflexivity | discriminate | exact Hend]).
      cbn [append] in Htail. rewrite Htail. apply andb_false_r.
  - cbn [append Py.startswith]. destruct p as [|a' p]; [reflexivity |].
    now rewrite (IH x r Hr) by (discriminate || exact Hend).
Qed.

Lemma contains_padded (p l x r : string) :
  solid p -> all_space l = true -> all_space r = true ->
  Py.contains p (l ++ x ++ r) = Py.contains p x.
Proof.
  intros (Hp & Hstart & Hend) Hl Hr.
  induction l as [|c l IH].
  - clear Hl. cbn [append]. induction x as [|b x IHx].
    + cbn [append]. rewrite (contains_in_spaces p r Hp Hstart Hr).
      destruct p; [congruence | reflexivity].
    + cbn [append]. rewrite (contains_unfold p (String b (x ++ r))),
        (contains_unfold p (String b x)), IHx.
      change (String b (x ++ r)) with (String b x ++ r).
      now rewrite startswith_padded_right.
  - cbn in Hl. apply andb_true_iff in Hl as [Hc Hl].
    cbn [append]. rewrite contains_unfold, startswith_after_space by assumption.
    now apply IH.
Qed.

Lemma any_pattern_padded (patterns : list string) (l x r : string) :
  forallb solidb patterns = true -> all_space l = true -> all_space r = true ->
  any_pattern patterns (l ++ x ++ r) = any_pattern patterns x.
Proof.
  intros Hps Hl Hr. induction patterns as [|p ps IH]; [reflexivity |].
  cbn in Hps. apply andb_true_iff in Hps as [Hp Hps].
  cbn [any_pattern]. now rewrite contains_padded, IH by (assumption || now apply solidb_solid).
Qed.

Lemma first_intent_padded (table : list (string * list string)) (l x r : string) :
  forallb (fun entry => forallb solidb (snd entry)) table = true ->
  all_space l = true -> all_space r = true ->
  first_intent table (l ++ x ++ r) = first_intent table x.
Proof.
  intros Htab Hl Hr. induction table as [|[intent ps] rest IH]; [reflexivity |].
  cbn in Htab. apply andb_true_iff in Htab as [Hps Htab].
  cbn [first_intent]. now rewrite any_pattern_padded, IH.
Qed.

Lemma identify_intent_padded (l s r : string) :
  all_space l = true -> all_space r = true ->
  _identify_intent (l ++ s ++ r) = _identify_intent s.
Proof.
  intros Hl Hr. unfold _identify_intent. rewrite !lower_append.
  now rewrite first_intent_padded by (reflexivity || now rewrite all_space_lower).
Qed.

(** X8. The classifier ignores case and surrounding whitespace: an input,
    its lowercased form, its stripped form and any padding of it with
    whitespace get the same intent and confidence. *)
Theorem identify_intent_ignores_case_and_padding (l s r : string) :
  all_space l = true -> all_space r = true ->
  _identify_intent (l ++ s ++ r) = _identify_intent s
  /\ _identify_intent (Py.lower s) = _identify_intent s
  /\ _identify_intent (Py.strip s) = _identify_intent s.
Proof.
  intros Hl Hr. split; [now apply identify_intent_padded |]. split.
  - unfold _identify_intent. now rewrite lower_idempotent.
  - destruct (strip_spec s) as (l' & r' & Hs & Hl' & Hr' & _).
    rewrite Hs at 2. symmetry. now apply identify_intent_padded.
Qed.

Lemma identify_intent_ignores_case_and_padding_witness :
  _identify_intent ("  " ++ "Thanks a lot" ++ Py.nl) = _identify_intent "Thanks a lot"
  /\ _identify_intent (Py.lower "Thanks a lot") = _identify_intent "Thanks a lot"
  /\ _identify_intent (Py.strip "Thanks a lot") = _identify_intent "Thanks a lot".
Proof.
  apply identify_intent_ignores_case_and_padding; reflexivity.
Defined.

(** X9. The knowledge lookup ignores case and surrounding whitespace: a
    topic, its lowercased form and its stripped form get the same answer.
    An empty or whitespace-only topic is contained in the first key and so
    gets the text of the first entry, not [None]; and every answer is [None]
    or a value of the table. *)
Theorem get_knowledge_ignores_case_and_padding (topic : string) :
  KnowledgeBase.get_knowledge (Py.lower topic) = KnowledgeBase.get_knowledge topic
  /\ KnowledgeBase.get_knowledge (Py.strip topic) = KnowledgeBase.get_knowledge topic
  /\ (all_space topic = true ->
      KnowledgeBase.get_knowledge topic = VStr KnowledgeBase.usa)
  /\ (KnowledgeBase.get_knowledge topic = VNone
      \/ exists key, In (key, KnowledgeBase.get_knowledge topic) KnowledgeBase.knowledge).
Proof.
  unfold KnowledgeBase.get_knowledge. repeat apply conj.
  - now rewrite lower_idempotent.
  - now rewrite <- strip_lower, strip_idempotent.
  - intros H. rewrite strip_all_space by now rewrite all_space_lower. reflexivity.
  - destruct (Py.lookup (Py.strip (Py.lower topic)) KnowledgeBase.knowledge) as [v|] eqn:E.
    + right. eexists. exact (lookup_some _ _ _ E).
    + destruct (partial_match_cases (Py.strip (Py.lower topic)) KnowledgeBase.knowledge)
        as [(earlier & key & v & later & Htab & _ & _ & ->) | [_ ->]]; [| now left].
      right. exists key. rewrite Htab. apply in_or_app. right. now left.
Qed.

Lemma get_knowledge_ignores_case_and_padding_witness :
  KnowledgeBase.get_knowledge ("  " ++ Py.nl) = VStr KnowledgeBase.usa.
Proof.
  apply (get_knowledge_ignores_case_and_padding ("  " ++ Py.nl)). reflexivity.
Defined.

(** ** The bare phrase *)

Lemma split_from_skip (sep a r : string) :
  Py.split_from sep (String.length a) (a ++ r) = Py.split_from sep 0 r.
Proof. induction a as [|c a IH]; [reflexivity | exact IH]. Qed.

Lemma split_from_padded (sep l r : string) :
  sep <> "" -> starts_with_space sep = false ->
  all_space l = true -> all_space r = true ->
  Py.split_from sep 0 (l ++ sep ++ r) = [l; r].
Proof.
  intros Hsep Hstart Hl Hr. induction l as [|c l IH].
  - destruct sep as [|a sep]; [congruence |].
    cbn [append Py.split_from].
    replace (Py.startswith (String a sep) (String a (sep ++ r))) with true
      by (symmetry; apply startswith_spec; now exists r).
    replace (String.length (String a sep) - 1) with (String.length sep)
      by (cbn [String.length]; lia).
    rewrite split_from_skip.
    now rewrite split_from_absent by now apply contains_in_spaces.
  - cbn in Hl. apply andb_true_iff in Hl as [Hc Hl].
    cbn [append Py.split_from]. rewrite startswith_after_space by assumption.
    now rewrite (IH Hl).
Qed.

Lemma dispatch_bare_phrase (w : World) (user_input : string) (self : EllaBella) :
  Py.strip (Py.lower user_input) = "tell me about" ->
  dispatch w user_input self = (Ok (VStr KnowledgeBase.usa), self).
Proof.
  intros H. destruct (strip_spec (Py.lower user_input)) as (l & r & Hs & Hl & Hr & _).
  rewrite H in Hs. unfold dispatch, _identify_intent. rewrite Hs.
  rewrite first_intent_padded by (reflexivity || assumption).
  remember (l ++ "tell me about" ++ r) as text eqn:Etext.
  cbn -[Py.contains Py.split KnowledgeBase.get_knowledge Py.truthy]. subst text.
  replace (Py.contains "tell me about" (l ++ "tell me about" ++ r)) with true
    by (symmetry; apply contains_spec; now exists l, r).
  unfold bind, lift, Py.split.
  rewrite split_from_padded by (discriminate || reflexivity || assumption).
  cbn [Py.last_item]. now rewrite (strip_all_space r Hr).
Qed.

(** X10. An input that is just the phrase "tell me about", in any case
    and with any surrounding whitespace, names an empty topic; the empty
    topic is contained in the first key of the table, so the turn answers
    with the text about the USA and does not consult the network. *)
Theorem bare_phrase_answers_first_entry (w : World) (user_input : string)
  (self : EllaBella) :
  Py.strip (Py.lower user_input) = "tell me about" ->
  generate_response w user_input self
  = (Ok usa_reply, answered w user_input usa_reply self).
Proof.
  intros H. rewrite generate_response_run. unfold answered, turn_body, bind.
  now rewrite (dispatch_bare_phrase w user_input _ H).
Qed.

Lemma bare_phrase_answers_first_entry_witness :
  generate_response no_network " Tell me ABOUT  " (init "token")
  = (Ok usa_reply, answered no_network " Tell me ABOUT  " usa_reply (init "token")).
Proof.
  apply bare_phrase_answers_first_entry. reflexivity.
Defined.

(** ** Where a turn can raise, and what it logs *)

Lemma get_api_response_cases (w : World) (user_input : string) (self : EllaBella) :
  exists r self',
    _get_api_response w user_input self = (Ok r, self')
    /\ (self' = self \/ exists e, self' = api_error self e /\ r = VStr unavailable).
Proof.
  unfold _get_api_response, try_except, bind, this.
  destruct (requests_post w (api_request self user_input)) as [e | status_code body];
    [eexists; eexists; split; [reflexivity | right; eexists; split; reflexivity] |].
  destruct (status_code =? 200)%Z;
    [| eexists; eexists; split; [reflexivity | now left]].
  destruct body as [e | response_data];
    [eexists; eexists; split; [reflexivity | right; eexists; split; reflexivity] |].
  destruct response_data as [| b | z | q | s | [|first rest] | d];
    try (eexists; eexists; split; [reflexivity | now left]).
  destruct first;
    eexists; eexists;
    (split; [reflexivity | (now left) || (right; eexists; split; reflexivity)]).
Qed.

Lemma dispatch_cases (w : World) (user_input : string) (self : EllaBella) :
  exists v s1,
    dispatch w user_input self = (Ok v, s1)
    /\ (s1 = self \/ exists e, s1 = api_error self e /\ v = VStr unavailable).
Proof.
  unfold dispatch. destruct (_identify_intent user_input) as [intent confidence].
  destruct (intent =? "greeting");
    [eexists; eexists; split; [reflexivity | now left] |].
  destruct (intent =? "about_bot");
    [eexists; eexists; split; [reflexivity | now left] |].
  destruct (intent =? "farewell");
    [eexists; eexists; split; [reflexivity | now left] |].
  destruct (intent =? "gratitude");
    [eexists; eexists; split; [reflexivity | now left] |].
  destruct (Py.contains "tell me about" (Py.lower user_input));
    [| apply get_api_response_cases].
  unfold bind, lift, Py.split.
  destruct (split_from_last "tell me about" 0 (Py.lower user_input))
    as (before & after & -> & _); [discriminate |].
  rewrite last_item_snoc.
  destruct (Py.truthy (KnowledgeBase.get_knowledge (Py.strip after)));
    [eexists; eexists; split; [reflexivity | now left] | apply get_api_response_cases].
Qed.

Lemma format_response_cases (v : value) :
  (Py.truthy v = false /\ _format_response v = Ok no_response)
  \/ (exists s r, v = VStr s /\ _format_response v = Ok r)
  \/ (Py.truthy v = true /\ (forall s, v <> VStr s)
      /\ _format_response v = Raise (Py.AttributeError v "replace")).
Proof.
  destruct (Py.truthy v) eqn:E.
  - right. destruct v as [| b | z | q | s | l | d];
      try (right; unfold _format_response; rewrite E;
           split; [reflexivity | split; [discriminate | reflexivity]]).
    left. assert (Hs : s <> "") by (intros ->; discriminate E).
    destruct (format_response_str s Hs) as (lines & _ & Hr).
    exists s. eexists. split; [reflexivity | exact Hr].
  - left. split; [reflexivity |]. unfold _format_response. now rewrite E.
Qed.

(** X11. In a turn, classification and dispatch never raise.  The body of
    the turn raises only when the response picked is neither text nor
    falsy, which is when the formatter looks up [replace] on it; the
    exception is then that [AttributeError] and the turn answers with the
    apology.  A response that is text is always formatted and returned. *)
Theorem turn_raises_only_on_non_text (w : World) (user_input : string)
  (self : EllaBella) :
  exists v s1,
    dispatch w user_input (received w user_input self) = (Ok v, s1)
    /\ (forall e s2,
           turn_body w user_input (received w user_input self) = (Raise e, s2) ->
           Py.truthy v = true /\ (forall s, v <> VStr s)
           /\ e = Py.AttributeError v "replace" /\ s2 = s1)
    /\ (Py.truthy v = true -> (forall s, v <> VStr s) ->
        fst (generate_response w user_input self) = Ok apology)
    /\ (forall s, v = VStr s ->
        exists r, _format_response v = Ok r
                  /\ fst (generate_response w user_input self) = Ok r)
    /\ (Py.truthy v = false ->
        fst (generate_response w user_input self) = Ok no_response).
Proof.
  destruct (dispatch_cases w user_input (received w user_input self))
    as (v & s1 & Hd & _).
  exists v, s1. split; [exact Hd |].
  rewrite generate_response_run. unfold turn_body, bind, lift. rewrite Hd.
  destruct (format_response_cases v)
    as [[Hfalsy ->] | [(s & r & -> & Hr) | (Htruthy & Hnot & ->)]]; [| rewrite Hr |].
  - repeat apply conj.
    + discriminate.
    + congruence.
    + intros s ->. now eexists.
    + reflexivity.
  - repeat apply conj.
    + discriminate.
    + intros _ H. now contradiction (H s).
    + intros s' _. now exists r.
    + intros H. destruct s; [| discriminate H]. cbn in Hr. now injection Hr as <-.
  - repeat apply conj.
    + now intros e s2 [= <- <-].
    + reflexivity.
    + intros s ->. now contradiction (Hnot s).
    + congruence.
Qed.

Lemma turn_raises_only_on_non_text_witness :
  fst (generate_response
         {| now_received := 0%Z; now_replied := 1%Z;
            requests_post := fun _ =>
              Response 200 (Json (VList [VDict [("generated_text", VInt 7)]])) |}
         "what now" (init "token"))
  = Ok apology.
Proof.
  match goal with |- fst (generate_response ?w ?i ?s) = _ =>
    destruct (turn_raises_only_on_non_text w i s) as (v & s1 & Hd & _ & Hraise & _)
  end.
  vm_compute in Hd. injection Hd as <- _.
  apply Hraise; [reflexivity | discriminate].
Defined.

Lemma turn_log_shape (w : World) (user_input : string) (self : EllaBella) :
  exists r self' errors,
    generate_response w user_input self = (Ok r, self')
    /\ api_token self' = api_token self
    /\ headers self' = headers self
    /\ logfile self'
       = (logfile self ++ [info_line "user" user_input] ++ errors
            ++ [info_line "EllaBella" r])%list
    /\ List.length errors <= 1
    /\ Forall (fun line => levelname line = ERROR) errors.
Proof.
  rewrite generate_response_run. unfold turn_body, bind, lift.
  destruct (dispatch_cases w user_input (received w user_input self))
    as (v & s1 & -> & Hs1).
  destruct Hs1 as [-> | (e & -> & ->)].
  - destruct (_format_response v) as [r | e].
    + exists r. eexists. exists []. split; [reflexivity |].
      cbn. rewrite <- !app_assoc. repeat split; auto.
    + exists apology. eexists. eexists [_]. split; [reflexivity |].
      cbn. rewrite <- !app_assoc. repeat split; auto.
  - exists unavailable. eexists. eexists [_]. split; [reflexivity |].
    cbn. rewrite <- !app_assoc. repeat split; auto.
Qed.

(** X12. A turn leaves the token and the request headers alone and only
    appends to the log: first the line of the user's message, last the line
    of the response, and between them at most one error line. *)
Theorem turn_logs_at_most_one_error (w : World) (user_input : string)
  (self : EllaBella) :
  exists r self' errors,
    generate_response w user_input self = (Ok r, self')
    /\ api_token self' = api_token self
    /\ headers self' = headers self
    /\ logfile self'
       = (logfile self ++ [info_line "user" user_input] ++ errors
            ++ [info_line "EllaBella" r])%list
    /\ List.length errors <= 1
    /\ Forall (fun line => levelname line = ERROR) errors.
Proof.
  destruct (turn_log_shape w user_input self)
    as (r & self' & errors & Hrun & Htoken & Hheaders & Hlog & Hlen & Herrors).
  exists r, self', errors.
  split; [exact Hrun |]. split; [exact Htoken |]. split; [exact Hheaders |].
  split; [exact Hlog |]. split; [exact Hlen | exact Herrors].
Qed.

Lemma session_invariants (turns : list (World * string)) (self : EllaBella) :
  api_token (session turns self) = api_token self
  /\ headers (session turns self) = headers self
  /\ exists added,
      logfile (session turns self) = (logfile self ++ added)%list
      /\ 2 * List.length turns <= List.length added <= 3 * List.length turns.
Proof.
  revert self; induction turns as [|[w user_input] rest IH]; intros self.
  - repeat split. exists []. rewrite app_nil_r. cbn. split; [reflexivity | lia].
  - cbn [session].
    destruct (turn_log_shape w user_input self)
      as (r & self' & errors & -> & Htoken & Hheaders & Hlog & Hlen & _).
    cbn [snd]. destruct (IH self') as (IHt & IHh & added & IHlog & IHlen).
    rewrite IHt, IHh, IHlog, Hlog. repeat split; try assumption.
    eexists. rewrite <- !app_assoc. split; [reflexivity |].
    rewrite !length_app. cbn [List.length]. lia.
Qed.

(** X13. Through a whole session the token and the request headers stay
    what they were, so a chatbot made with [init] keeps the bearer header of
    its token; the log only grows, by two or three lines a turn. *)
Theorem session_keeps_token_and_log (turns : list (World * string)) (token : string)
  (self : EllaBella) :
  (api_token (session turns self) = api_token self
   /\ headers (session turns self) = headers self
   /\ exists added,
       logfile (session turns self) = (logfile self ++ added)%list
       /\ 2 * List.length turns <= List.length added <= 3 * List.length turns)
  /\ headers (session turns (init token)) = [("Authorization", "Bearer " ++ token)].
Proof.
  split; [apply session_invariants |].
  now destruct (session_invariants turns (init token)) as (_ & -> & _).
Qed.

(** ** The summary and whole turns *)

Lemma turn_senders_length (n : nat) : List.length (turn_senders n) = 2 * n.
Proof.
  unfold turn_senders. induction n as [|n IH]; [reflexivity |].
  cbn [repeat concat]. rewrite length_app, IH. cbn. lia.
Qed.

Lemma turn_senders_add (a b : nat) :
  turn_senders (a + b) = (turn_senders a ++ turn_senders b)%list.
Proof. unfold turn_senders. now rewrite repeat_app, concat_app. Qed.

Lemma last_n_turn_senders (n : nat) :
  Py.last_n 10 (turn_senders n) = turn_senders (Nat.min 5 n).
Proof.
  unfold Py.last_n. rewrite turn_senders_length.
  destruct (Nat.le_gt_cases n 5) as [Hle | Hgt].
  - replace (2 * n - 10) with 0 by lia. now rewrite Nat.min_r.
  - rewrite Nat.min_l by lia.
    replace n with ((n - 5) + 5) at 2 by lia.
    rewrite turn_senders_add, skipn_app, turn_senders_length.
    replace (2 * n - 10 - 2 * (n - 5)) with 0 by lia.
    rewrite skipn_all2 by (rewrite turn_senders_length; lia). reflexivity.
Qed.

Lemma session_senders (turns : list (World * string)) (self : EllaBella) :
  map sender (conversation_history (session turns self))
  = (map sender (conversation_history self) ++ turn_senders (List.length turns))%list.
Proof.
  revert self; induction turns as [|[w user_input] rest IH]; intros self.
  - cbn. now rewrite app_nil_r.
  - cbn [session].
    destruct (generate_response_history w user_input self) as (r & self' & -> & Hhist).
    cbn [snd]. rewrite IH, Hhist, map_app, <- app_assoc. reflexivity.
Qed.

Lemma session_app (earlier later : list (World * string)) (self : EllaBella) :
  session (earlier ++ later) self = session later (session earlier self).
Proof.
  revert self; induction earlier as [|[w user_input] earlier IH]; intros self;
    [reflexivity | apply IH].
Qed.

Lemma session_turn_history (turns : list (World * string)) (self : EllaBella) :
  conversation_history (session turns self)
  = (conversation_history self ++ turn_history turns self)%list.
Proof.
  revert self; induction turns as [|[w user_input] rest IH]; intros self.
  - cbn. now rewrite app_nil_r.
  - unfold turn_history. cbn [session replies].
    destruct (generate_response_history w user_input self) as (r & self' & -> & Hhist).
    cbn [snd combine flat_map fst]. fold (turn_history rest self').
    now rewrite IH, Hhist, <- app_assoc.
Qed.

Lemma turn_history_length (turns : list (World * string)) (self : EllaBella) :
  List.length (turn_history turns self) = 2 * List.length turns.
Proof.
  destruct (session_history turns self) as (added & Hadded & <-).
  rewrite session_turn_history in Hadded. apply app_inv_head in Hadded. now subst.
Qed.

(** X14. In a session that starts with an empty history the summary never
    cuts a turn in half: it is exactly the record of the last five turns,
    or of all of them when there are fewer, each turn as the user's input
    followed by the response that turn gave, with their contents, ISO
    timestamps and senders. *)
Theorem summary_keeps_whole_turns (isoformat : datetime -> string)
  (turns : list (World * string)) (token : string) :
  let entry := fun msg : Message =>
    [ ("content", VStr (content msg));
      ("timestamp", VStr (isoformat (timestamp msg)));
      ("sender", VStr (sender msg)) ] in
  let earlier := firstn (List.length turns - 5) turns in
  let last_five := Py.last_n 5 turns in
  get_conversation_summary isoformat (session turns (init token))
  = map entry (turn_history last_five (session earlier (init token)))
  /\ turns = (earlier ++ last_five)%list
  /\ List.length last_five = Nat.min 5 (List.length turns)
  /\ map (Py.lookup "sender")
       (get_conversation_summary isoformat (session turns (init token)))
     = map (fun who => Some (VStr who)) (turn_senders (Nat.min 5 (List.length turns)))
  /\ List.length (get_conversation_summary isoformat (session turns (init token)))
     = 2 * Nat.min 5 (List.length turns).
Proof.
  intros entry earlier last_five.
  assert (Hturns : turns = (earlier ++ last_five)%list) by apply last_n_suffix.
  assert (Hfive : List.length last_five = Nat.min 5 (List.length turns))
    by apply last_n_length.
  assert (H : map sender (Py.last_n 10 (conversation_history (session turns (init token))))
              = turn_senders (Nat.min 5 (List.length turns))).
  { unfold Py.last_n. rewrite <- skipn_map, <- (length_map sender), session_senders.
    cbn [init conversation_history map app]. apply last_n_turn_senders. }
  split; [| split; [exact Hturns | split; [exact Hfive | split]]].
  - unfold get_conversation_summary. fold entry. f_equal.
    apply (last_n_recent 10 _ (conversation_history (session earlier (init token)))).
    + rewrite Hturns at 1. now rewrite session_app, session_turn_history.
    + rewrite turn_history_length, Hfive.
      destruct (session_history turns (init token)) as (added & Hadded & Hlen).
      rewrite Hadded, length_app, Hlen.
      cbn [init conversation_history List.length]. lia.
  - unfold get_conversation_summary. rewrite <- H, !map_map. reflexivity.
  - unfold get_conversation_summary.
    rewrite length_map, <- (length_map sender), H. apply turn_senders_length.
Qed.

Lemma summary_keeps_whole_turns_witness :
  map (Py.lookup "content")
      (get_conversation_summary (fun _ => "")
         (session [ (server_error, "thanks"); (server_error, "hi");
                    (server_error, "bye"); (server_error, "hey");
                    (server_error, "hello"); (server_error, "thank you") ]
            (init "token")))
  = [ Some (VStr "hi"); Some (VStr greeting_reply);
      Some (VStr "bye"); Some (VStr farewell_reply);
      Some (VStr "hey"); Some (VStr greeting_reply);
      Some (VStr "hello"); Some (VStr greeting_reply);
      Some (VStr "thank you"); Some (VStr gratitude_reply) ].
Proof.
  match goal with |- map _ (get_conversation_summary ?iso (session ?t (init ?k))) = _ =>
    destruct (summary_keeps_whole_turns iso t k) as [H _]
  end.
  rewrite H. vm_compute. reflexivity.
Defined.

(** ** The command line *)

Lemma chat_loop_quit (before after : list (World * string)) (w : World)
  (line : string) (self : EllaBella) :
  never_quits before ->
  is_quit (Py.strip line) = true ->
  chat_loop (before ++ (w, line) :: after) self
  = (Ok tt, session (typed before) self,
     (flat_map exchange (replies (typed before) self)
        ++ ["You: "; print goodbye])%list).
Proof.
  intros Hbefore Hquit. revert self.
  induction before as [|[w' line'] before IH]; intros self.
  - cbn [app chat_loop]. now rewrite Hquit.
  - cbn [app chat_loop typed map fst snd session replies].
    rewrite (Hbefore w' line') by now left.
    destruct (generate_response_history w' (Py.strip line') self)
      as (r & self' & -> & _).
    cbn [snd]. fold (typed before).
    rewrite IH by (intros w0 l0 Hin; apply (Hbefore w0 l0); now right).
    reflexivity.
Qed.

Lemma chat_loop_eof (stdin : list (World * string)) (self : EllaBella) :
  never_quits stdin ->
  chat_loop stdin self
  = (Raise (Exn "EOFError" "EOF when reading a line"), session (typed stdin) self,
     (flat_map exchange (replies (typed stdin) self) ++ ["You: "])%list).
Proof.
  intros Hstdin. revert self.
  induction stdin as [|[w line] stdin IH]; intros self; [reflexivity |].
  cbn [chat_loop typed map fst snd session replies].
  rewrite (Hstdin w line) by now left.
  destruct (generate_response_history w (Py.strip line) self) as (r & self' & -> & _).
  cbn [snd]. fold (typed stdin).
  rewrite IH by (intros w0 l0 Hin; apply (Hstdin w0 l0); now right).
  reflexivity.
Qed.

(** Standard input either never quits or has a first quitting line. *)
Lemma first_quit (stdin : list (World * string)) :
  never_quits stdin
  \/ exists before w line after,
      stdin = (before ++ (w, line) :: after)%list
      /\ never_quits before /\ is_quit (Py.strip line) = true.
Proof.
  induction stdin as [|[w line] stdin IH]; [left; intros ? ? [] |].
  destruct (is_quit (Py.strip line)) eqn:E.
  - right. exists [], w, line, stdin. split; [reflexivity |]. split; [intros ? ? [] | exact E].
  - destruct IH as [Hnever | (before & w' & line' & after & -> & Hbefore & Hquit)].
    + left. intros w0 l0 [[= <- <-] | Hin]; [exact E | exact (Hnever w0 l0 Hin)].
    + right. exists ((w, line) :: before), w', line', after.
      split; [reflexivity |]. split; [| exact Hquit].
      intros w0 l0 [[= <- <-] | Hin]; [exact E | exact (Hbefore w0 l0 Hin)].
Qed.

Lemma init_ok (st : Startup) (token : string) (chatbot : Chatbot) :
  __init__ st token = Ok chatbot ->
  conversation_history (core chatbot) = []
  /\ exists preferences, preferences_file st = Opened (Loaded preferences).
Proof.
  unfold __init__.
  destruct (_load_preferences (preferences_file st)) as [preferences | e] eqn:E;
    [| discriminate].
  apply load_preferences_ok in E.
  destruct (pipeline st); intros [= <-]; (split; [reflexivity | now exists preferences]).
Qed.

Lemma init_loaded (st : Startup) (token : string) (preferences : value) :
  preferences_file st = Opened (Loaded preferences) ->
  exists chatbot, __init__ st token = Ok chatbot.
Proof.
  intros H. unfold __init__. rewrite H. cbn. destruct (pipeline st); now eexists.
Qed.

(** X15. [main] returns normally exactly when the token is set and not
    empty, the preferences file opens and parses, and some line of standard
    input is [quit], [exit] or [bye] up to case and surrounding whitespace.
    With a token and a chatbot but no such line, it ends in the [EOFError]
    of the exhausted input. *)
Theorem main_returns_iff_quit (getenv : option string) (st : Startup)
  (stdin : list (World * string)) :
  (status (main getenv st stdin) = Ok tt
   <-> (exists token, getenv = Some token /\ token <> "")
       /\ (exists preferences, preferences_file st = Opened (Loaded preferences))
       /\ (exists w line, In (w, line) stdin /\ is_quit (Py.strip line) = true))
  /\ (forall token chatbot,
         getenv = Some token -> token <> "" -> __init__ st token = Ok chatbot ->
         never_quits stdin ->
         status (main getenv st stdin) = Raise (Exn "EOFError" "EOF when reading a line")).
Proof.
  split.
  - split.
    + unfold main. destruct getenv as [[|c token] |]; try discriminate.
      destruct (__init__ st (String c token)) as [chatbot | e] eqn:Einit; [| discriminate].
      destruct (init_ok _ _ _ Einit) as [_ Hfile].
      destruct (first_quit stdin) as [Hnever | (before & w & line & after & -> & Hb & Hq)].
      * rewrite (chat_loop_eof stdin _ Hnever). discriminate.
      * intros _. split; [now exists (String c token) |]. split; [exact Hfile |].
        exists w, line. split; [apply in_or_app; right; now left | exact Hq].
    + intros ((token & -> & Htoken) & (preferences & Hfile) & (w0 & l0 & Hin & Hq0)).
      unfold main. destruct token as [|c token]; [congruence |].
      destruct (init_loaded st (String c token) preferences Hfile) as [chatbot ->].
      destruct (first_quit stdin) as [Hnever | (before & w & line & after & -> & Hb & Hq)];
        [rewrite (Hnever w0 l0 Hin) in Hq0; discriminate |].
      now rewrite (chat_loop_quit before after w line _ Hb Hq).
  - intros token chatbot -> Htoken Hinit Hnever. unfold main.
    destruct token as [|c token]; [congruence |].
    now rewrite Hinit, (chat_loop_eof stdin _ Hnever).
Qed.

Lemma main_returns_iff_quit_witness :
  status (main (Some "token") good_start [(server_error, "hi"); (server_error, "thanks")])
  = Raise (Exn "EOFError" "EOF when reading a line").
Proof.
  apply (main_returns_iff_quit (Some "token") good_start
           [(server_error, "hi"); (server_error, "thanks")] ) with (token := "token")
           (chatbot := {| core := init "token";
                          user_preferences := VDict [("name", VStr "Ada")];
                          sentiment_analyzer := Some positive |}).
  - reflexivity.
  - discriminate.
  - reflexivity.
  - intros w line [[= <- <-] | [[= <- <-] | []]]; reflexivity.
Defined.

(** X16. A run that reaches a quit command holds one turn for every line
    before the first quit command, on the stripped line, and nothing else:
    the conversation history and the log are those of that session, two
    entries a line; standard output is the banner, a prompt and a reply for
    each turn, and the last prompt with the goodbye.  The quit command is
    not recorded and the lines after it are not read. *)
Theorem main_runs_turns_before_quit (token : string) (st : Startup) (chatbot : Chatbot)
  (before after : list (World * string)) (w : World) (line : string) :
  token <> "" ->
  __init__ st token = Ok chatbot ->
  never_quits before ->
  is_quit (Py.strip line) = true ->
  main (Some token) st (before ++ (w, line) :: after)
  = {| stdout := (print banner
                    :: flat_map exchange (replies (typed before) (core chatbot))
                    ++ ["You: "; print goodbye])%list;
       log := logfile (session (typed before) (core chatbot));
       history := conversation_history (session (typed before) (core chatbot));
       status := Ok tt |}
  /\ List.length (conversation_history (session (typed before) (core chatbot)))
     = 2 * List.length before
  /\ List.length (replies (typed before) (core chatbot)) = List.length before.
Proof.
  intros Htoken Hinit Hbefore Hquit. split; [| split].
  - unfold main. destruct token as [|c token]; [congruence |].
    now rewrite Hinit, (chat_loop_quit before after w line _ Hbefore Hquit).
  - destruct (session_history (typed before) (core chatbot)) as (added & -> & Hlen).
    destruct (init_ok _ _ _ Hinit) as [-> _].
    cbn [app]. rewrite Hlen. unfold typed. now rewrite length_map.
  - generalize (core chatbot) as self. clear.
    induction before as [|[w line] before IH]; intros self; [reflexivity |].
    cbn [typed map fst snd replies].
    destruct (generate_response_history w (Py.strip line) self) as (r & self' & -> & _).
    cbn [List.length]. fold (typed before). now rewrite IH.
Qed.

Lemma main_runs_turns_before_quit_witness :
  history (main (Some "token") good_start
             [(server_error, " hi "); (server_error, " BYE "); (server_error, "more")])
  = [ {| content := "hi"; timestamp := 0%Z; sender := "user" |};
      {| content := greeting_reply; timestamp := 1%Z; sender := "EllaBella" |} ].
Proof.
  pose proof (main_runs_turns_before_quit "token" good_start
                {| core := init "token";
                   user_preferences := VDict [("name", VStr "Ada")];
                   sentiment_analyzer := Some positive |}
                [(server_error, " hi ")] [(server_error, "more")] server_error " BYE ")
    as H.
  destruct H as [H _].
  - discriminate.
  - reflexivity.
  - intros w line [[= <- <-] | []]. reflexivity.
  - reflexivity.
  - cbn [app] in H. rewrite H. reflexivity.
Defined.

(** X17. On a machine without a preferences file [main] never gets to
    the banner: construction raises the [AttributeError] of the missing
    [_save_default_preferences], which is logged as fatal, reported on
    standard output and raised again.  With the token missing or empty
    [main] raises a [ValueError] before anything is written or logged. *)
Theorem main_fails_at_startup (getenv : option string) (st : Startup)
  (stdin : list (World * string)) :
  (getenv = None \/ getenv = Some "" ->
   main getenv st stdin
   = {| stdout := []; log := []; history := [];
        status := Raise (Exn "ValueError"
                           "Please set HUGGINGFACE_API_TOKEN environment variable") |})
  /\ (forall token e,
         getenv = Some token -> token <> "" ->
         (preferences_file st = OpenRaises e /\ class_name e = "FileNotFoundError"
          \/ preferences_file st = Opened (LoadRaises e)
             /\ class_name e = "JSONDecodeError") ->
         main getenv st stdin
         = {| stdout := [print ("An error occurred: " ++ str_exn no_save_method)];
              log := [ {| levelname := ERROR;
                          message := "Fatal error: " ++ str_exn no_save_method |} ];
              history := [];
              status := Raise no_save_method |}).
Proof.
  split.
  - now intros [-> | ->].
  - intros token e -> Htoken Hfile. unfold main, __init__, _load_preferences, except_class.
    destruct token as [|c token]; [congruence |].
    destruct Hfile as [[-> He] | [-> He]]; now rewrite He.
Qed.

Lemma main_fails_at_startup_witness :
  status (main (Some "token") fresh_checkout [(server_error, "hi")])
  = Raise no_save_method.
Proof.
  destruct (main_fails_at_startup (Some "token") fresh_checkout [(server_error, "hi")])
    as [_ H].
  rewrite (H "token" (Exn "FileNotFoundError" "No such file or directory"));
    [reflexivity | reflexivity | discriminate | now left].
Defined.
